(** * osgEarth WMS tile source (src/osgPlugins/wms/ReaderWriterWMS.cpp)

    A shallow embedding of [WMSSource]: its constructor, [createProfile],
    [createImage], [createHeightField] and [createURI], together with the
    external collaborators the class calls (capabilities and tile-service
    readers, spatial references, the profile registry, the image reader and
    the image-to-heightfield converter), which enter as parameters.

    Conventions.
    - A C++ [double] is a [spec_float] (IEEE 754 binary64 datum); [==] on
      doubles is [SFeqb], the IEEE comparison, not structural equality.
    - A C++ [float] is the rational number it denotes: a binary32 value is
      a dyadic rational and is held exactly.  A [float] initialised from a
      decimal literal holds the literal rounded to binary32.
    - [std::string] is [string]; [a + b] on strings is [a +:+ b].
    - A [const Profile*] is an address into a store of profile objects, or
      [None] for [NULL]; [osg::ref_ptr<T>] holding no object is [None].
    - The class mutates its fields and talks to the outside world; both are
      threaded through a small state-and-abort monad [M].  A run aborts
      where the C++ has no defined behaviour (a null pointer is
      dereferenced, [sprintf] overruns its buffer or runs out of arguments)
      and where the model of [sprintf] gives no answer (a conversion other
      than [%lf] and [%%]).
    - Every [osg::notify] line and every outbound fetch is appended to a
      trace, so that "logs", "is not probed" and "no retry" are statements
      about that trace. The trailing [std::endl] of a log line is omitted. *)

From Stdlib Require Import ZArith QArith String Ascii List Lia Lqa Bool DecimalString.
From Stdlib Require Import Floats.SpecFloat.
From stdpp Require Import base option list strings gmap.

Open Scope string_scope.
Open Scope Z_scope.

(** ** Numbers and their printed form *)

(** C++ [double]. *)
Definition double : Type := spec_float.

(** [a == b] on doubles. *)
Definition double_eq (a b : double) : bool := SFeqb a b.

(** The binary64 datum of an integer literal such as [-180]. *)
Definition double_of_Z (z : Z) : double := binary_normalize 53 1024 z 0 false.

(** [operator<<(std::ostream&, int)] in the classic locale. *)
Definition string_of_int (z : Z) : string :=
  match z with
  | Z0 => "0"
  | Zpos p => NilZero.string_of_uint (Pos.to_uint p)
  | Zneg p => "-" +:+ NilZero.string_of_uint (Pos.to_uint p)
  end.

(** Nearest integer to [n / d] for [0 <= n], [0 < d], ties to even: the
    rounding [printf] performs on the exact binary value. *)
Definition round_half_even (n d : Z) : Z :=
  let q := n / d in
  let r := n mod d in
  match 2 * r ?= d with
  | Lt => q
  | Gt => q + 1
  | Eq => if Z.even q then q else q + 1
  end.

(** [|x| * 10^6] rounded to an integer, for the finite double [m * 2^e]. *)
Definition micro_units (m : positive) (e : Z) : Z :=
  if 0 <=? e then Zpos m * 2 ^ e * 1000000
  else round_half_even (Zpos m * 1000000) (2 ^ (- e)).

Definition zero_pad (width : nat) (s : string) : string :=
  string_of_list_ascii (repeat "0"%char (width - String.length s)) +:+ s.

(** The digits of a non-negative count of millionths, as [I.FFFFFF]. *)
Definition fixed_digits (u : Z) : string :=
  string_of_int (u / 1000000) +:+ "." +:+ zero_pad 6 (string_of_int (u mod 1000000)).

(** What the conversion [%lf] prints for a double: fixed-point notation with
    six digits after the decimal point, the value rounded to nearest, ties
    to even; an infinity prints as [inf] or [-inf].  A NaN carries no sign
    in [spec_float] and prints as [nan] here, where the C library prints
    [-nan] for one whose sign bit is set: properties that mean the printed
    form of the C library are stated for finite numbers. *)
Definition format_lf (x : double) : string :=
  match x with
  | S754_zero s => (if s then "-" else EmptyString) +:+ fixed_digits 0
  | S754_infinity s => (if s then "-" else EmptyString) +:+ "inf"
  | S754_nan => "nan"
  | S754_finite s m e => (if s then "-" else EmptyString) +:+ fixed_digits (micro_units m e)
  end.

(** ** [sprintf] into a fixed buffer *)

(** Why a run has no defined result. *)
Inductive Abort : Type :=
  | NullDereference      (* [p->m()] with [p] null or dangling *)
  | BufferOverrun        (* [sprintf] wrote past [char buf[2048]] *)
  | FormatArgumentMissing (* a conversion with no argument left *)
  | FormatUnsupported.   (* a conversion other than [%lf] and [%%]: not modelled *)

Inductive Printed : Type :=
  | Rendered (s : string)
  | Misprinted (why : Abort).

Definition emit (s : string) (p : Printed) : Printed :=
  match p with
  | Rendered t => Rendered (s +:+ t)
  | Misprinted why => Misprinted why
  end.

(** The format interpreter of [printf], restricted to the two conversion
    specifications the request templates use: [%lf] consumes the next
    [double] argument, [%%] prints a percent sign.  Ordinary characters are
    copied.  Arguments left over at the end are ignored, as in C.  Every
    other conversion, defined in C or not, is outside the model and gives
    [FormatUnsupported], which says nothing about what the C++ prints. *)
Fixpoint vformat (fmt : string) (args : list double) : Printed :=
  match fmt with
  | EmptyString => Rendered EmptyString
  | String c rest =>
      if Ascii.eqb c "%" then
        match rest with
        | EmptyString => Misprinted FormatUnsupported
        | String c1 rest1 =>
            if Ascii.eqb c1 "%" then emit "%" (vformat rest1 args)
            else if Ascii.eqb c1 "l" then
              match rest1 with
              | EmptyString => Misprinted FormatUnsupported
              | String c2 rest2 =>
                  if Ascii.eqb c2 "f" then
                    match args with
                    | [] => Misprinted FormatArgumentMissing
                    | a :: args' => emit (format_lf a) (vformat rest2 args')
                    end
                  else Misprinted FormatUnsupported
              end
            else Misprinted FormatUnsupported
        end
      else emit (String c EmptyString) (vformat rest args)
  end.

(** [char buf[N]; sprintf(buf, fmt, ...)]: the output and its terminating
    NUL must fit in [N] bytes. *)
Definition sprintf (capacity : nat) (fmt : string) (args : list double) : Printed :=
  match vformat fmt args with
  | Rendered s =>
      if (String.length s <? capacity)%nat then Rendered s
      else Misprinted BufferOverrun
  | Misprinted why => Misprinted why
  end.

(** ** Data model *)

(** [GeoExtent], as read through [xMin()], [yMin()], [xMax()], [yMax()] and
    [getBounds]. *)
Record GeoExtent : Type := mkGeoExtent {
  xMin : double;
  yMin : double;
  xMax : double;
  yMax : double
}.

(** [Profile::ProfileType]. *)
Inductive ProfileType : Type :=
  | TYPE_UNKNOWN
  | TYPE_GEODETIC
  | TYPE_MERCATOR
  | TYPE_LOCAL.

Definition ProfileType_eqb (a b : ProfileType) : bool :=
  match a, b with
  | TYPE_UNKNOWN, TYPE_UNKNOWN
  | TYPE_GEODETIC, TYPE_GEODETIC
  | TYPE_MERCATOR, TYPE_MERCATOR
  | TYPE_LOCAL, TYPE_LOCAL => true
  | _, _ => false
  end.

(** A [TileKey] is read only through [getGeoExtent()]. *)
Record TileKey : Type := mkTileKey {
  getGeoExtent : GeoExtent
}.

(** A [Layer] of the capabilities document is read only through
    [getExtents(minx, miny, maxx, maxy)]. *)
Record Layer : Type := mkLayer {
  layer_minx : double;
  layer_miny : double;
  layer_maxx : double;
  layer_maxy : double
}.

(** The [Capabilities] document, through the two members the source calls. *)
Record Capabilities : Type := mkCapabilities {
  suggestExtension : string;
  getLayerByName : string -> option Layer
}.

(** A [TilePattern] of a tile-service document. *)
Record TilePattern : Type := mkTilePattern {
  getPrototype : string
}.

(** An address in the store of profile objects. *)
Definition ProfilePtr : Type := nat.

(** [osg::notify] severities used by the source. *)
Inductive Severity : Type := WARN | NOTICE | INFO.

(** What a run does that the outside can observe. *)
Inductive Event : Type :=
  | Notify (sev : Severity) (msg : string)
  | FetchCapabilities (url : string)
  | FetchTileService (url : string)
  | FetchImage (uri : string).

(** [_prefix.find_first_of(c) != std::string::npos]. *)
Fixpoint contains_char (c : ascii) (s : string) : bool :=
  match s with
  | EmptyString => false
  | String d rest => Ascii.eqb d c || contains_char c rest
  end.

(** [s.empty()]. *)
Definition empty_string (s : string) : bool :=
  match s with
  | EmptyString => true
  | String _ _ => false
  end.

Section WMS.

(** The types of the objects the collaborators hand out. *)
Context {SpatialReference Image HeightField : Type}.

(** A [Profile] object, through the three members the source calls. *)
Record Profile : Type := mkProfile {
  getSRS : SpatialReference;
  getExtent : GeoExtent;
  getProfileType : ProfileType
}.

(** The store of live [Profile] objects; address [a] is position [a]. *)
Definition Store : Type := list Profile.

(** A [TileService] document, through the two members the source calls.
    [ts_createProfile] may allocate, so it maps a store to a pointer and a
    store. *)
Record TileService : Type := mkTileService {
  getMatchingPatterns :
    string -> string -> string -> string -> Z -> Z -> list TilePattern;
  ts_createProfile : list TilePattern -> Store -> option ProfilePtr * Store
}.

(** The private members of [WMSSource]. *)
Record WMSSource : Type := mkWMSSource {
  _prefix : string;
  _layers : string;
  _style : string;
  _format : string;
  _wms_format : string;
  _srs : string;
  _tileServiceURL : string;
  _capabilitiesURL : string;
  _tile_size : Z;
  _elevation_unit : string;
  _tileService : option TileService;
  _profile : option ProfilePtr;
  _prototype : string
}.

Definition set_format (v : string) (s : WMSSource) : WMSSource :=
  mkWMSSource (_prefix s) (_layers s) (_style s) v (_wms_format s) (_srs s)
    (_tileServiceURL s) (_capabilitiesURL s) (_tile_size s) (_elevation_unit s)
    (_tileService s) (_profile s) (_prototype s).

Definition set_srs (v : string) (s : WMSSource) : WMSSource :=
  mkWMSSource (_prefix s) (_layers s) (_style s) (_format s) (_wms_format s) v
    (_tileServiceURL s) (_capabilitiesURL s) (_tile_size s) (_elevation_unit s)
    (_tileService s) (_profile s) (_prototype s).

Definition set_tileServiceURL (v : string) (s : WMSSource) : WMSSource :=
  mkWMSSource (_prefix s) (_layers s) (_style s) (_format s) (_wms_format s) (_srs s)
    v (_capabilitiesURL s) (_tile_size s) (_elevation_unit s)
    (_tileService s) (_profile s) (_prototype s).

Definition set_capabilitiesURL (v : string) (s : WMSSource) : WMSSource :=
  mkWMSSource (_prefix s) (_layers s) (_style s) (_format s) (_wms_format s) (_srs s)
    (_tileServiceURL s) v (_tile_size s) (_elevation_unit s)
    (_tileService s) (_profile s) (_prototype s).

Definition set_tileService (v : option TileService) (s : WMSSource) : WMSSource :=
  mkWMSSource (_prefix s) (_layers s) (_style s) (_format s) (_wms_format s) (_srs s)
    (_tileServiceURL s) (_capabilitiesURL s) (_tile_size s) (_elevation_unit s)
    v (_profile s) (_prototype s).

Definition set_prototype (v : string) (s : WMSSource) : WMSSource :=
  mkWMSSource (_prefix s) (_layers s) (_style s) (_format s) (_wms_format s) (_srs s)
    (_tileServiceURL s) (_capabilitiesURL s) (_tile_size s) (_elevation_unit s)
    (_tileService s) (_profile s) v.

(** [!p] on a pointer. *)
Definition is_null {A : Type} (p : option A) : bool :=
  match p with
  | Some _ => false
  | None => true
  end.

(** ** The state-and-abort monad *)

(** Everything a member function can read or change. *)
Record World : Type := mkWorld {
  this : WMSSource;
  store : Store;
  trace : list Event
}.

Inductive Outcome (A : Type) : Type :=
  | Done (a : A) (w : World)
  | Aborted (why : Abort) (w : World).
Arguments Done {A} a w.
Arguments Aborted {A} why w.

Definition M (A : Type) : Type := World -> Outcome A.

Definition ret {A} (a : A) : M A := fun w => Done a w.

Definition bind {A B} (m : M A) (k : A -> M B) : M B :=
  fun w =>
    match m w with
    | Done a w' => k a w'
    | Aborted why w' => Aborted why w'
    end.

Definition abort {A} (why : Abort) : M A := fun w => Aborted why w.

Definition get_this : M WMSSource := fun w => Done (this w) w.

Definition modify_this (f : WMSSource -> WMSSource) : M unit :=
  fun w => Done tt (mkWorld (f (this w)) (store w) (trace w)).

Definition log (e : Event) : M unit :=
  fun w => Done tt (mkWorld (this w) (store w) (trace w ++ [e])%list).

(** [osg::notify(sev) << msg << std::endl]. *)
Definition notify (sev : Severity) (msg : string) : M unit := log (Notify sev msg).

(** [if (c) body]. *)
Definition when (c : bool) (body : M unit) : M unit :=
  if c then body else ret tt.

(** [p->...] on a [ref_ptr] or raw pointer to an object that is no
    [Profile]: aborts on null. *)
Definition deref {A} (p : option A) : M A :=
  match p with
  | Some a => ret a
  | None => abort NullDereference
  end.

(** [p->...] on a [const Profile*]: the object at that address. *)
Definition load (p : option ProfilePtr) : M Profile :=
  fun w =>
    match p with
    | Some a =>
        match store w !! a with
        | Some o => Done o w
        | None => Aborted NullDereference w
        end
    | None => Aborted NullDereference w
    end.

(** [new Profile(...)]: the object is placed at the next free address. *)
Definition allocate (o : Profile) : M ProfilePtr :=
  fun w => Done (length (store w)) (mkWorld (this w) (store w ++ [o])%list (trace w)).

#[global] Instance M_ret : MRet M := @ret.
#[global] Instance M_bind : MBind M := fun A B k m => bind m k.

(** C++ [float]: the rational number the binary32 datum denotes. *)
Definition float : Type := Q.

(** ** External collaborators

    None of these is defined in ReaderWriterWMS.cpp; each is called there
    and enters the model as a parameter. *)
Record Collaborators : Type := mkCollaborators {
  (* [osgEarth::as<int>(str, default)] *)
  as_int : string -> Z -> Z;
  (* [CapabilitiesReader::read(url)] *)
  CapabilitiesReader_read : string -> option Capabilities;
  (* [SpatialReference::create(init)] *)
  SpatialReference_create : string -> option SpatialReference;
  (* [a->isEquivalentTo(b)] *)
  isEquivalentTo : SpatialReference -> SpatialReference -> bool;
  (* [srs->isGeographic()] *)
  isGeographic : SpatialReference -> bool;
  (* [osgEarth::Registry::instance()->getGlobalGeodeticProfile()] *)
  getGlobalGeodeticProfile : option ProfilePtr;
  (* the object [Profile::create(init, xmin, ymin, xmax, ymax)] constructs *)
  Profile_create : string -> double -> double -> double -> double -> Profile;
  (* [TileServiceReader::read(url)] *)
  TileServiceReader_read : string -> option TileService;
  (* [osgDB::readImageFile(uri, options)] *)
  readImageFile : string -> option Image;
  (* [ImageToHeightFieldConverter().convert(image, scaleFactor)] *)
  convert : option Image -> float -> HeightField
}.

Variable ext : Collaborators.

(** ** [WMSSource::WMSSource] (lines 53-97) *)

(** [options->getPluginData(key)]: the configured string, or [NULL]. *)
Definition getPluginData (options : gmap string string) (key : string) : option string :=
  options !! key.

(** A [std::string] member is default-constructed empty and assigned only
    when its key is configured. *)
Definition configured (options : gmap string string) (key : string) : string :=
  match getPluginData options key with
  | Some v => v
  | None => EmptyString
  end.

Definition WMSSource_new (options : gmap string string) : WMSSource :=
  let tile_size :=
    match getPluginData options "tile_size" with
    | Some v => as_int ext v 256
    | None =>
        match getPluginData options "default_tile_size" with
        | Some v => as_int ext v 256
        | None => 256
        end
    end in
  let elevation_unit := configured options "elevation_unit" in
  mkWMSSource
    (configured options "url")
    (configured options "layers")
    (configured options "style")
    (configured options "format")
    (configured options "wms_format")
    (configured options "srs")
    (configured options "tileservice_url")
    (configured options "capabilities_url")
    tile_size
    (if empty_string elevation_unit then "m" else elevation_unit)
    None
    None
    EmptyString.

(** ** [WMSSource::createProfile] (lines 100-223) *)

(** Line 104. *)
Definition separator (prefix : string) : ascii :=
  if contains_char "?" prefix then "&"%char else "?"%char.

(** Lines 106-107. *)
Definition deriveCapabilitiesURL (sep : ascii) : M unit :=
  s ← get_this;
  when (empty_string (_capabilitiesURL s))
    (modify_this (set_capabilitiesURL
       (_prefix s +:+ String sep "SERVICE=WMS&VERSION=1.1.1&REQUEST=GetCapabilities"))).

(** Line 110: the fetch is visible from outside. *)
Definition readCapabilities : M (option Capabilities) :=
  s ← get_this;
  log (FetchCapabilities (_capabilitiesURL s));;
  ret (CapabilitiesReader_read ext (_capabilitiesURL s)).

(** Lines 117-128. *)
Definition chooseDefaults (capabilities : Capabilities) : M unit :=
  s ← get_this;
  notify INFO ("[osgEarth::WMS] Got capabilities from " +:+ _capabilitiesURL s);;
  when (empty_string (_format s))
    (modify_this (set_format (suggestExtension capabilities));;
     s1 ← get_this;
     notify NOTICE
       ("[osgEarth::WMS] No format specified, capabilities suggested extension "
        +:+ _format s1));;
  s2 ← get_this;
  when (empty_string (_format s2)) (modify_this (set_format "png"));;
  s3 ← get_this;
  when (empty_string (_srs s3)) (modify_this (set_srs "EPSG:4326")).

(** Lines 131-141: what the stream [buf] holds. *)
Definition getMapRequest (s : WMSSource) (sep : ascii) : string :=
  _prefix s +:+ String sep
    ("SERVICE=WMS&VERSION=1.1.1&REQUEST=GetMap"
     +:+ "&LAYERS=" +:+ _layers s
     +:+ "&FORMAT="
     +:+ (if empty_string (_wms_format s) then "image/" +:+ _format s else _wms_format s)
     +:+ "&STYLES=" +:+ _style s
     +:+ "&SRS=" +:+ _srs s
     +:+ "&WIDTH=" +:+ string_of_int (_tile_size s)
     +:+ "&HEIGHT=" +:+ string_of_int (_tile_size s)
     +:+ "&BBOX=%lf,%lf,%lf,%lf").

(** Lines 131-142. *)
Definition buildPrototype (sep : ascii) : M unit :=
  s ← get_this;
  modify_this (set_prototype (getMapRequest s sep)).

(** Lines 147-150: the map and the WMS source share a reference. *)
Definition sameSRS (wms_srs : option SpatialReference)
    (mapProfile : option ProfilePtr) : M (option ProfilePtr) :=
  match wms_srs, mapProfile with
  | Some srs, Some _ =>
      mp ← load mapProfile;
      ret (if isEquivalentTo ext (getSRS mp) srs then mapProfile else None)
  | _, _ => ret None
  end.

(** Lines 153-182: the extents of the requested layer. *)
Definition fromLayerExtents (capabilities : Capabilities)
    (wms_srs : option SpatialReference)
    (result : option ProfilePtr) : M (option ProfilePtr) :=
  match result with
  | Some _ => ret result
  | None =>
      s ← get_this;
      match getLayerByName capabilities (_layers s) with
      | None => ret None
      | Some layer =>
          let minx := layer_minx layer in
          let miny := layer_miny layer in
          let maxx := layer_maxx layer in
          let maxy := layer_maxy layer in
          srs ← deref wms_srs;
          result1 ←
            (if isGeographic ext srs then
               let globalGeodetic := getGlobalGeodeticProfile ext in
               gg ← load globalGeodetic;
               ret (if double_eq minx (xMin (getExtent gg)) &&
                       double_eq miny (yMin (getExtent gg)) &&
                       double_eq maxx (xMax (getExtent gg)) &&
                       double_eq maxy (yMax (getExtent gg))
                    then globalGeodetic else None)
             else ret None);
          match result1 with
          | Some _ => ret result1
          | None =>
              a ← allocate (Profile_create ext (_srs s) minx miny maxx maxy);
              ret (Some a)
          end
      end
  end.

(** Lines 185-188: the last resort. *)
Definition lastResort (wms_srs : option SpatialReference)
    (mapProfile : option ProfilePtr)
    (result : option ProfilePtr) : M (option ProfilePtr) :=
  match result with
  | Some _ => ret result
  | None =>
      srs ← deref wms_srs;
      if isGeographic ext srs then
        match mapProfile with
        | None => ret None
        | Some _ =>
            mp ← load mapProfile;
            ret (if negb (ProfileType_eqb (getProfileType mp) TYPE_LOCAL)
                 then mapProfile else None)
        end
      else ret None
  end.

(** Lines 144-188. *)
Definition selectProfile (capabilities : Capabilities)
    (mapProfile : option ProfilePtr) : M (option ProfilePtr) :=
  s ← get_this;
  let wms_srs := SpatialReference_create ext (_srs s) in
  result ← sameSRS wms_srs mapProfile;
  result ← fromLayerExtents capabilities wms_srs result;
  lastResort wms_srs mapProfile result.

(** [_tileService->createProfile(patterns)]. *)
Definition tileServiceProfile (ts : TileService)
    (patterns : list TilePattern) : M (option ProfilePtr) :=
  fun w =>
    let '(r, st) := ts_createProfile ts patterns (store w) in
    Done r (mkWorld (this w) st (trace w)).

(** Lines 193-213. *)
Definition probeTileService (sep : ascii)
    (result : option ProfilePtr) : M (option ProfilePtr) :=
  s ← get_this;
  when (empty_string (_tileServiceURL s))
    (modify_this (set_tileServiceURL
       (_prefix s +:+ String sep "request=GetTileService")));;
  s1 ← get_this;
  notify INFO ("[osgEarth::WMS] Testing for JPL/TileService at " +:+ _tileServiceURL s1);;
  log (FetchTileService (_tileServiceURL s1));;
  modify_this (set_tileService (TileServiceReader_read ext (_tileServiceURL s1)));;
  s2 ← get_this;
  match _tileService s2 with
  | Some ts =>
      notify NOTICE "[osgEarth::WMS] Found JPL/TileService spec";;
      let patterns :=
        getMatchingPatterns ts (_layers s2) (_format s2) (_style s2) (_srs s2)
          (_tile_size s2) (_tile_size s2) in
      match patterns with
      | p0 :: _ =>
          result1 ← tileServiceProfile ts patterns;
          modify_this (set_prototype (_prefix s2 +:+ String sep (getPrototype p0)));;
          ret result1
      | [] => ret result
      end
  | None =>
      notify INFO "[osgEarth::WMS] No JPL/TileService spec found; assuming standard WMS";;
      ret result
  end.

(** Line 216. *)
Definition appendFormatSuffix : M unit :=
  s ← get_this;
  modify_this (set_prototype (_prototype s +:+ "&." +:+ _format s)).

Definition createProfile (mapProfile : option ProfilePtr)
    (configPath : string) : M (option ProfilePtr) :=
  s ← get_this;
  let sep := separator (_prefix s) in
  deriveCapabilitiesURL sep;;
  capabilities ← readCapabilities;
  match capabilities with
  | None =>
      notify WARN "[osgEarth::WMS] Unable to read WMS GetCapabilities; failing.";;
      ret None
  | Some capabilities =>
      chooseDefaults capabilities;;
      buildPrototype sep;;
      result ← selectProfile capabilities mapProfile;
      result ← probeTileService sep result;
      appendFormatSuffix;;
      ret result
  end.

(** ** [createURI], [createImage], [createHeightField] (lines 226-270) *)

(** Lines 252-260. *)
Definition createURI (key : TileKey) : M string :=
  s ← get_this;
  let e := getGeoExtent key in
  match sprintf 2048 (_prototype s) [xMin e; yMin e; xMax e; yMax e] with
  | Rendered uri => ret uri
  | Misprinted why => abort why
  end.

(** Lines 226-229. *)
Definition createImage (key : TileKey) : M (option Image) :=
  uri ← createURI key;
  log (FetchImage uri);;
  ret (readImageFile ext uri).

(** What [scaleFactor = 0.3048] stores in the [float]: the literal, a
    [double], converted to binary32, that is [10227391 * 2^-25], a little
    above [0.3048]. *)
Definition float_0_3048 : float := (10227391 # 33554432)%Q.

(** Lines 240-246. *)
Definition scaleFactor (elevation_unit : string) : float :=
  if String.eqb elevation_unit "ft" then float_0_3048 else 1%Q.

(** Lines 232-250. *)
Definition createHeightField (key : TileKey) : M HeightField :=
  image ← createImage key;
  when (is_null image)
    (uri ← createURI key;
     notify INFO ("[osgEarth::WMS] Failed to read heightfield from " +:+ uri));;
  s ← get_this;
  ret (convert ext image (scaleFactor (_elevation_unit s))).

(** Lines 262-270. *)
Definition getPixelsPerTile (s : WMSSource) : Z := _tile_size s.
Definition getExtension (s : WMSSource) : string := _format s.

End WMS.

Arguments Done {SpatialReference A} a w.
Arguments Aborted {SpatialReference A} why w.

(** ** The values a successful capabilities fetch fixes

    Closed forms of what lines 104-142 leave in the members, used to state
    the theorems below. *)

Section Resolved.

Context {SpatialReference Image HeightField : Type}.
Variable ext : @Collaborators SpatialReference Image HeightField.

(** [_capabilitiesURL] after lines 106-107. *)
Definition usedCapabilitiesURL (s : @WMSSource SpatialReference) : string :=
  if empty_string (_capabilitiesURL s)
  then _prefix s +:+ String (separator (_prefix s))
         "SERVICE=WMS&VERSION=1.1.1&REQUEST=GetCapabilities"
  else _capabilitiesURL s.

(** [_tileServiceURL] after lines 193-194. *)
Definition usedTileServiceURL (s : @WMSSource SpatialReference) : string :=
  if empty_string (_tileServiceURL s)
  then _prefix s +:+ String (separator (_prefix s)) "request=GetTileService"
  else _tileServiceURL s.

(** [_format] after lines 118-125. *)
Definition resolvedFormat (s : @WMSSource SpatialReference) (caps : Capabilities) : string :=
  if empty_string (_format s)
  then (if empty_string (suggestExtension caps) then "png" else suggestExtension caps)
  else _format s.

(** [_srs] after lines 127-128. *)
Definition resolvedSRS (s : @WMSSource SpatialReference) : string :=
  if empty_string (_srs s) then "EPSG:4326" else _srs s.

(** The members after line 128, before the prototype is built. *)
Definition defaulted (s : @WMSSource SpatialReference) (caps : Capabilities)
  : @WMSSource SpatialReference :=
  mkWMSSource (_prefix s) (_layers s) (_style s) (resolvedFormat s caps)
    (_wms_format s) (resolvedSRS s) (_tileServiceURL s) (usedCapabilitiesURL s)
    (_tile_size s) (_elevation_unit s) (_tileService s) (_profile s)
    (_prototype s).

(** The members after line 142. *)
Definition prepared (s : @WMSSource SpatialReference) (caps : Capabilities)
  : @WMSSource SpatialReference :=
  set_prototype (getMapRequest (defaulted s caps) (separator (_prefix s)))
    (defaulted s caps).

(** The log lines and fetches of lines 110-122. *)
Definition preparationTrace (s : @WMSSource SpatialReference) (caps : Capabilities)
  : list Event :=
  [FetchCapabilities (usedCapabilitiesURL s);
   Notify INFO ("[osgEarth::WMS] Got capabilities from " +:+ usedCapabilitiesURL s)]
  ++ (if empty_string (_format s)
      then [Notify NOTICE
              ("[osgEarth::WMS] No format specified, capabilities suggested extension "
               +:+ suggestExtension caps)]
      else [])%list.

(** Lines 193-222 as one step. *)
Definition finishProfile (sep : ascii) (result : option ProfilePtr)
  : @M SpatialReference (option ProfilePtr) :=
  result1 ← probeTileService ext sep result;
  appendFormatSuffix;;
  ret result1.

(** Strategy (a) does not apply: there is no caller profile, or its
    reference is not equivalent to the target reference. *)
Definition callerNotEquivalent (st : @Store SpatialReference) (srs : SpatialReference)
    (mapProfile : option ProfilePtr) : Prop :=
  match mapProfile with
  | None => True
  | Some p => exists mp, st !! p = Some mp /\ isEquivalentTo ext (getSRS mp) srs = false
  end.

(** The patterns the tile-service probe finds for the members [s]; none
    when no tile-service document is read. *)
Definition matchingPatterns (s : @WMSSource SpatialReference) : list TilePattern :=
  match TileServiceReader_read ext (usedTileServiceURL s) with
  | Some ts =>
      getMatchingPatterns ts (_layers s) (_format s) (_style s) (_srs s)
        (_tile_size s) (_tile_size s)
  | None => []
  end.

(** The fetch and log lines of the tile-service probe. *)
Definition probeTrace (s : @WMSSource SpatialReference) : list Event :=
  [Notify INFO ("[osgEarth::WMS] Testing for JPL/TileService at " +:+ usedTileServiceURL s);
   FetchTileService (usedTileServiceURL s)].

(** A computation is [quiet] when it leaves the members and the trace as
    they were; it may still allocate. *)
Definition quiet {A : Type} (m : @M SpatialReference A) : Prop :=
  forall w a w1, m w = Done a w1 -> this w1 = this w /\ trace w1 = trace w.

End Resolved.


(** The arguments [createURI] passes to [sprintf]. *)
Definition keyBounds (key : TileKey) : list double :=
  let e := getGeoExtent key in [xMin e; yMin e; xMax e; yMax e].

(** The part of the GetMap request before its [BBOX] parameter. *)
Definition requestFront {SpatialReference : Type}
    (s : @WMSSource SpatialReference) (sep : ascii) : string :=
  _prefix s +:+ String sep
    ("SERVICE=WMS&VERSION=1.1.1&REQUEST=GetMap"
     +:+ "&LAYERS=" +:+ _layers s
     +:+ "&FORMAT="
     +:+ (if empty_string (_wms_format s) then "image/" +:+ _format s else _wms_format s)
     +:+ "&STYLES=" +:+ _style s
     +:+ "&SRS=" +:+ _srs s
     +:+ "&WIDTH=" +:+ string_of_int (_tile_size s)
     +:+ "&HEIGHT=" +:+ string_of_int (_tile_size s)).

(** Modelled from the spec: [ImageToHeightFieldConverter::convert], which
    is not part of ReaderWriterWMS.cpp.  The spec has it multiply every
    sample value by the scale factor, and tolerate an absent image by
    producing an empty field.  [samples] reads the raw samples of an
    image. *)
Definition spec_convert {Image : Type} (samples : Image -> list float)
    (image : option Image) (scale : float) : list float :=
  match image with
  | Some i => map (fun h => (h * scale)%Q) (samples i)
  | None => []
  end.


(** The layer's bounds are, datum for datum, those of the extent [e]. *)
Definition sameBounds (layer : Layer) (e : GeoExtent) : Prop :=
  layer_minx layer = xMin e /\ layer_miny layer = yMin e /\
  layer_maxx layer = xMax e /\ layer_maxy layer = yMax e.

(** A double on which [==] and identity of the datum agree: neither a NaN
    (unequal to itself) nor a zero (equal to the zero of the other sign). *)
Definition nonzero_number (x : double) : bool :=
  match x with
  | S754_zero _ | S754_nan => false
  | S754_infinity _ | S754_finite _ _ _ => true
  end.

(** ** A small service, for concrete runs

    One reachable host, [http://x/], whose capabilities document lists the
    layers [basic] (the whole Earth) and [europe]; two known references;
    a registry whose global-geodetic profile lives at address [0]. *)

Definition demo_as_int (str : string) (default : Z) : Z :=
  match NilZero.int_of_string str with
  | Some i => Z.of_int i
  | None => default
  end.

Definition world_extent : GeoExtent :=
  mkGeoExtent (double_of_Z (-180)) (double_of_Z (-90))
    (double_of_Z 180) (double_of_Z 90).

Definition demo_capabilities : Capabilities :=
  mkCapabilities EmptyString
    (fun name =>
       if String.eqb name "basic"
       then Some (mkLayer (double_of_Z (-180)) (double_of_Z (-90))
                    (double_of_Z 180) (double_of_Z 90))
       else if String.eqb name "europe"
       then Some (mkLayer (double_of_Z (-10)) (double_of_Z 35)
                    (double_of_Z 30) (double_of_Z 70))
       else None).

Definition demo_global_geodetic : @Profile string :=
  mkProfile "EPSG:4326" world_extent TYPE_GEODETIC.

Definition demo_mercator : @Profile string :=
  mkProfile "EPSG:900913"
    (mkGeoExtent (double_of_Z (-20037508)) (double_of_Z (-20037508))
       (double_of_Z 20037508) (double_of_Z 20037508))
    TYPE_MERCATOR.

Definition demo_store : @Store string := [demo_global_geodetic; demo_mercator].

Definition demo_pattern : TilePattern :=
  mkTilePattern
    "request=GetMap&layers=global_mosaic&srs=EPSG:4326&format=image/jpeg&styles=t1&width=512&height=512&bbox=%lf,%lf,%lf,%lf".

Definition demo_pattern_pan : TilePattern :=
  mkTilePattern
    "request=GetMap&layers=global_mosaic&srs=EPSG:4326&format=image/jpeg&styles=pan&width=512&height=512&bbox=%lf,%lf,%lf,%lf".

Definition demo_tile_service : @TileService string :=
  mkTileService
    (fun layers format style srs width height =>
       if String.eqb layers "basic" then [demo_pattern; demo_pattern_pan] else [])
    (fun patterns st =>
       (Some (length st),
        (st ++ [mkProfile "EPSG:4326" world_extent TYPE_GEODETIC])%list)).

Definition demo_ext (tile_service : option TileService) (image : option (list float))
  : @Collaborators string (list float) (list float) :=
  mkCollaborators
    demo_as_int
    (fun url => if String.prefix "http://x/" url then Some demo_capabilities else None)
    (fun init =>
       if String.eqb init "EPSG:4326" || String.eqb init "EPSG:900913"
       then Some init else None)
    String.eqb
    (fun srs => String.eqb srs "EPSG:4326")
    (Some 0%nat)
    (fun init a b c d =>
       mkProfile init (mkGeoExtent a b c d)
         (if String.eqb init "EPSG:4326" then TYPE_GEODETIC else TYPE_LOCAL))
    (fun url => tile_service)
    (fun uri => image)
    (spec_convert id).

Definition demo_options (url layers unit : string) : gmap string string :=
  list_to_map [("url", url); ("layers", layers); ("elevation_unit", unit)].

Definition demo_world (tile_service : option TileService) (url layers unit : string)
  : @World string :=
  mkWorld (WMSSource_new (demo_ext tile_service None) (demo_options url layers unit))
    demo_store [].

(** The world a successful [createProfile] leaves, or the world at the
    abort. *)
Definition world_of {A : Type} (o : @Outcome string A) : @World string :=
  match o with
  | Done _ w => w
  | Aborted _ w => w
  end.

Definition demo_resolved (layers unit : string) : @World string :=
  world_of (createProfile (demo_ext None None) (Some 0%nat) EmptyString
              (demo_world None "http://x/wms" layers unit)).

(** A reachable URL of 2057 characters. *)
Definition long_url : string :=
  "http://x/" +:+ string_of_list_ascii (repeat "a"%char 2048).

Definition demo_key : TileKey :=
  mkTileKey (mkGeoExtent (double_of_Z (-180)) (double_of_Z (-90))
               (double_of_Z 0) (double_of_Z 90)).

(** ** Closed forms of a completed [createProfile] *)

Section Completed.

Context {SpatialReference Image HeightField : Type}.
Variable ext : @Collaborators SpatialReference Image HeightField.

(** The world in which profile selection starts, line 144. *)
Definition preparedWorld (w : @World SpatialReference) (caps : Capabilities)
  : @World SpatialReference :=
  mkWorld (prepared (this w) caps) (store w)
    (trace w ++ preparationTrace (this w) caps)%list.

(** The log line that closes the tile-service probe, line 200 or 212. *)
Definition probeVerdict (s : @WMSSource SpatialReference) : Event :=
  match TileServiceReader_read ext (usedTileServiceURL s) with
  | Some _ => Notify NOTICE "[osgEarth::WMS] Found JPL/TileService spec"
  | None =>
      Notify INFO "[osgEarth::WMS] No JPL/TileService spec found; assuming standard WMS"
  end.

(** The members after line 213. *)
Definition probedMembers (s : @WMSSource SpatialReference)
  : @WMSSource SpatialReference :=
  let s1 :=
    set_tileService (TileServiceReader_read ext (usedTileServiceURL s))
      (set_tileServiceURL (usedTileServiceURL s) s) in
  match matchingPatterns ext s with
  | p0 :: _ =>
      set_prototype (_prefix s +:+ String (separator (_prefix s)) (getPrototype p0)) s1
  | [] => s1
  end.

(** The members after line 216. *)
Definition resolvedMembers (s : @WMSSource SpatialReference) (caps : Capabilities)
  : @WMSSource SpatialReference :=
  let s2 := probedMembers (prepared s caps) in
  set_prototype (_prototype s2 +:+ "&." +:+ _format s2) s2.

(** The store after line 213, given the store [st] selection left. *)
Definition probedStore (s : @WMSSource SpatialReference) (st : @Store SpatialReference)
  : @Store SpatialReference :=
  match TileServiceReader_read ext (usedTileServiceURL s), matchingPatterns ext s with
  | Some ts, p0 :: ps => snd (ts_createProfile ts (p0 :: ps) st)
  | _, _ => st
  end.

(** The value returned at line 222, given the result [r0] and the store
    [st] of selection. *)
Definition probedResult (s : @WMSSource SpatialReference) (st : @Store SpatialReference)
    (r0 : option ProfilePtr) : option ProfilePtr :=
  match TileServiceReader_read ext (usedTileServiceURL s), matchingPatterns ext s with
  | Some ts, p0 :: ps => fst (ts_createProfile ts (p0 :: ps) st)
  | _, _ => r0
  end.

End Completed.

(** The world an outcome ends in. *)
Definition outcomeWorld {SpatialReference A : Type}
    (o : @Outcome SpatialReference A) : @World SpatialReference :=
  match o with
  | Done _ w => w
  | Aborted _ w => w
  end.

(** Line 185: there is a caller profile and it is not of type
    [TYPE_LOCAL]. *)
Definition callerIsGlobal {SpatialReference : Type} (st : @Store SpatialReference)
    (mapProfile : option ProfilePtr) : bool :=
  match mapProfile with
  | Some p =>
      match st !! p with
      | Some mp => negb (ProfileType_eqb (getProfileType mp) TYPE_LOCAL)
      | None => false
      end
  | None => false
  end.

(** [std::isfinite]: a zero or a finite number, neither an infinity nor a
    NaN. *)
Definition is_finite (x : double) : bool :=
  match x with
  | S754_zero _ | S754_finite _ _ _ => true
  | S754_infinity _ | S754_nan => false
  end.

(** The four bounds of the key's extent are finite. *)
Definition finiteBounds (key : TileKey) : bool :=
  forallb is_finite (keyBounds key).

(** One of the layer's bounds is a NaN. *)
Definition is_nan (x : double) : bool :=
  match x with
  | S754_nan => true
  | _ => false
  end.

Definition hasNaN (layer : Layer) : bool :=
  is_nan (layer_minx layer) || is_nan (layer_miny layer) ||
  is_nan (layer_maxx layer) || is_nan (layer_maxy layer).

(** The fetches among the events of a trace. *)
Definition is_fetch (e : Event) : bool :=
  match e with
  | Notify _ _ => false
  | FetchCapabilities _ | FetchTileService _ | FetchImage _ => true
  end.

Definition fetchEvents (tr : list Event) : list Event := List.filter is_fetch tr.

(** ** [ReaderWriterWMS] (lines 289-314) *)

Section ReaderWriter.

Context {SpatialReference Image HeightField : Type}.
Variable ext : @Collaborators SpatialReference Image HeightField.

(** [osgDB::getFileExtension] and [osgDB::equalCaseInsensitive], which the
    plugin calls and OpenSceneGraph defines. *)
Variable getFileExtension : string -> string.
Variable equalCaseInsensitive : string -> string -> bool.

(** Lines 294-297. *)
Definition className : string := "WMS Reader".

(** Lines 299-302. *)
Definition acceptsExtension (extension : string) : bool :=
  equalCaseInsensitive extension "osgearth_wms".

(** [ReadResult]: the status [FILE_NOT_HANDLED], or the object read. *)
Inductive ReadResult : Type :=
  | FILE_NOT_HANDLED
  | ObjectRead (source : @WMSSource SpatialReference).

(** Lines 304-313.  [opt] may be [NULL]; the constructor dereferences it at
    line 57 without a test. *)
Definition readObject (file_name : string) (opt : option (gmap string string))
  : Abort + ReadResult :=
  let extension := getFileExtension file_name in
  if negb (acceptsExtension extension) then inr FILE_NOT_HANDLED
  else
    match opt with
    | Some options => inr (ObjectRead (WMSSource_new ext options))
    | None => inl NullDereference
    end.

End ReaderWriter.

(** ** More concrete inputs *)

(** A capabilities document whose layer [broken] has a NaN bound. *)
Definition demo_capabilities_nan : Capabilities :=
  mkCapabilities "jpg"
    (fun name =>
       if String.eqb name "broken"
       then Some (mkLayer S754_nan (double_of_Z (-90))
                    (double_of_Z 180) (double_of_Z 90))
       else None).

(** The demo service with that document. *)
Definition nan_ext : @Collaborators string (list float) (list float) :=
  mkCollaborators
    demo_as_int
    (fun url => if String.prefix "http://x/" url then Some demo_capabilities_nan else None)
    (SpatialReference_create (demo_ext None None))
    String.eqb
    (isGeographic (demo_ext None None))
    (Some 0%nat)
    (Profile_create (demo_ext None None))
    (fun url => None)
    (fun uri => None)
    (spec_convert id).

(** A source constructed from a list of configured keys, in the demo
    store. *)
Definition configured_world (keys : list (string * string)) : @World string :=
  mkWorld (WMSSource_new (demo_ext None None) (list_to_map keys)) demo_store [].

(** The world a run of [createProfile] ends in. *)
Definition resolved_world
    (ext : @Collaborators string (list float) (list float))
    (mapProfile : option ProfilePtr) (w : @World string) : @World string :=
  outcomeWorld (createProfile ext mapProfile EmptyString w).

(** Stand-ins for the two [osgDB] functions: the text after the last dot,
    and equality after lowering ASCII letters. *)
Fixpoint demo_getFileExtension (s : string) : string :=
  match s with
  | EmptyString => EmptyString
  | String c rest =>
      if contains_char "." rest then demo_getFileExtension rest
      else if Ascii.eqb c "." then rest else EmptyString
  end.

Definition lower (c : ascii) : ascii :=
  let n := nat_of_ascii c in
  if ((65 <=? n) && (n <=? 90))%nat then ascii_of_nat (n + 32) else c.

Fixpoint lower_string (s : string) : string :=
  match s with
  | EmptyString => EmptyString
  | String c rest => String (lower c) (lower_string rest)
  end.

Definition demo_equalCaseInsensitive (a b : string) : bool :=
  String.eqb (lower_string a) (lower_string b).

(** * Properties *)

(** ** Printing *)

Example format_lf_minus_180 : format_lf (double_of_Z (-180)) = "-180.000000".
Proof. reflexivity. Qed.

Example format_lf_small :
  format_lf (S754_finite false 1 (-1)) = "0.500000" /\
  format_lf (S754_finite false 1 (-21)) = "0.000000" /\
  format_lf (S754_finite false 3 (-21)) = "0.000001".
Proof. repeat split; reflexivity. Qed.

Example sprintf_bbox :
  sprintf 2048 "BBOX=%lf,%lf,%lf,%lf"
    (map double_of_Z [-180; -90; 0; 90])
  = Rendered "BBOX=-180.000000,-90.000000,0.000000,90.000000".
Proof. reflexivity. Qed.

(** ** [createProfile] *)

Section Proofs.

Context {SpatialReference Image HeightField : Type}.
Variable ext : @Collaborators SpatialReference Image HeightField.

#[local] Arguments String.append : simpl never.

Ltac unfold_monad :=
  unfold mbind, M_bind, bind, ret, when, get_this, modify_this, notify, log,
    abort, deref, load, allocate in *.

Lemma bind_Done {A B : Type} (m : @M SpatialReference A) (k : A -> M B)
    (w w1 : World) (a : A) :
  m w = Done a w1 -> (m ≫= k) w = k a w1.
Proof. intros H. unfold mbind, M_bind, bind. rewrite H. reflexivity. Qed.

Lemma bind_Aborted {A B : Type} (m : @M SpatialReference A) (k : A -> M B)
    (w w1 : World) (why : Abort) :
  m w = Aborted why w1 -> (m ≫= k) w = Aborted why w1.
Proof. intros H. unfold mbind, M_bind, bind. rewrite H. reflexivity. Qed.

Lemma createProfile_resolved (mapProfile : option ProfilePtr) (configPath : string)
    (caps : Capabilities) (w : World) :
  CapabilitiesReader_read ext (usedCapabilitiesURL (this w)) = Some caps ->
  createProfile ext mapProfile configPath w =
    (result ← selectProfile ext caps mapProfile;
     finishProfile ext (separator (_prefix (this w))) result)
    (mkWorld (prepared (this w) caps) (store w)
       (trace w ++ preparationTrace (this w) caps)%list).
Proof.
  destruct w as [s st tr]. destruct s. intros H.
  unfold createProfile, finishProfile, deriveCapabilitiesURL, readCapabilities,
    chooseDefaults, buildPrototype.
  unfold_monad. unfold prepared, defaulted, preparationTrace, usedCapabilitiesURL, resolvedFormat, resolvedSRS in *.
  cbn in *.
  destruct _capabilitiesURL0; cbn in *; rewrite H; cbn;
    destruct _format0; cbn; try destruct (suggestExtension caps) eqn:E; cbn;
    destruct _srs0; cbn; try rewrite E; rewrite <- ?app_assoc; reflexivity.
Qed.

Lemma appendFormatSuffix_run (w : @World SpatialReference) :
  appendFormatSuffix w =
    Done tt (mkWorld (set_prototype (_prototype (this w) +:+ "&." +:+ _format (this w)) (this w))
               (store w) (trace w)).
Proof. reflexivity. Qed.

Lemma probeTileService_absent (sep : ascii) (result : option ProfilePtr) (w : World) :
  sep = separator (_prefix (this w)) ->
  TileServiceReader_read ext (usedTileServiceURL (this w)) = None ->
  probeTileService ext sep result w =
    Done result
      (mkWorld (set_tileService None (set_tileServiceURL (usedTileServiceURL (this w)) (this w)))
         (store w)
         (trace w ++ probeTrace (this w) ++
          [Notify INFO "[osgEarth::WMS] No JPL/TileService spec found; assuming standard WMS"])%list).
Proof.
  destruct w as [s st tr]. destruct s. intros -> H.
  unfold probeTileService, probeTrace, usedTileServiceURL in *. unfold_monad. cbn in *.
  destruct _tileServiceURL0; cbn in *; rewrite H; cbn; rewrite <- ?app_assoc; reflexivity.
Qed.

Lemma probeTileService_no_match (sep : ascii) (result : option ProfilePtr) (w : World)
    (ts : TileService) :
  sep = separator (_prefix (this w)) ->
  TileServiceReader_read ext (usedTileServiceURL (this w)) = Some ts ->
  getMatchingPatterns ts (_layers (this w)) (_format (this w)) (_style (this w))
    (_srs (this w)) (_tile_size (this w)) (_tile_size (this w)) = [] ->
  probeTileService ext sep result w =
    Done result
      (mkWorld (set_tileService (Some ts) (set_tileServiceURL (usedTileServiceURL (this w)) (this w)))
         (store w)
         (trace w ++ probeTrace (this w) ++
          [Notify NOTICE "[osgEarth::WMS] Found JPL/TileService spec"])%list).
Proof.
  destruct w as [s st tr]. destruct s. intros -> H Hp.
  unfold probeTileService, probeTrace, usedTileServiceURL in *. unfold_monad. cbn in *.
  destruct _tileServiceURL0; cbn in *; rewrite H; cbn; rewrite Hp; cbn;
    rewrite <- ?app_assoc; reflexivity.
Qed.

Lemma probeTileService_match (sep : ascii) (result : option ProfilePtr) (w : World)
    (ts : TileService) (p0 : TilePattern) (ps : list TilePattern) :
  sep = separator (_prefix (this w)) ->
  TileServiceReader_read ext (usedTileServiceURL (this w)) = Some ts ->
  getMatchingPatterns ts (_layers (this w)) (_format (this w)) (_style (this w))
    (_srs (this w)) (_tile_size (this w)) (_tile_size (this w)) = p0 :: ps ->
  probeTileService ext sep result w =
    Done (fst (ts_createProfile ts (p0 :: ps) (store w)))
      (mkWorld
         (set_prototype (_prefix (this w) +:+ String sep (getPrototype p0))
            (set_tileService (Some ts)
               (set_tileServiceURL (usedTileServiceURL (this w)) (this w))))
         (snd (ts_createProfile ts (p0 :: ps) (store w)))
         (trace w ++ probeTrace (this w) ++
          [Notify NOTICE "[osgEarth::WMS] Found JPL/TileService spec"])%list).
Proof.
  destruct w as [s st tr]. destruct s. intros -> H Hp.
  unfold probeTileService, tileServiceProfile, probeTrace, usedTileServiceURL in *.
  unfold_monad. cbn in *.
  destruct _tileServiceURL0; cbn in *; rewrite H; cbn; rewrite Hp; cbn;
    destruct (ts_createProfile ts (p0 :: ps) st); cbn;
    rewrite <- ?app_assoc; reflexivity.
Qed.

(** *** Profile selection *)

Lemma double_eq_identity (a g : double) :
  nonzero_number g = true -> (double_eq a g = true <-> a = g).
Proof.
  unfold double_eq, SFeqb. intros Hg. split.
  - destruct a as [sa| sa| |sa ma ea], g as [sg| sg| |sg mg eg];
      cbn in *; try discriminate.
    all: destruct sa, sg; cbn; try discriminate; try reflexivity.
    all: destruct (Z.compare ea eg) eqn:He; try discriminate;
        apply Z.compare_eq in He; subst eg;
        destruct (Pos.compare_cont Eq ma mg) eqn:Hm; try discriminate;
        apply Pos.compare_eq in Hm; subst mg; reflexivity.
  - intros ->. destruct g as [sg| sg| |sg mg eg]; cbn in *; try discriminate.
    all: destruct sg; try reflexivity.
    all: rewrite Z.compare_refl;
        change (Pos.compare_cont Eq mg mg) with (Pos.compare mg mg);
        rewrite Pos.compare_refl; reflexivity.
Qed.

Lemma sameSRS_equivalent (srs : SpatialReference) (p : ProfilePtr) (mp : Profile)
    (w : World) :
  store w !! p = Some mp ->
  isEquivalentTo ext (getSRS mp) srs = true ->
  sameSRS ext (Some srs) (Some p) w = Done (Some p) w.
Proof.
  intros Hp He. unfold sameSRS. unfold_monad. rewrite Hp, He. reflexivity.
Qed.

Lemma sameSRS_not_applicable (srs : SpatialReference) (mapProfile : option ProfilePtr)
    (w : World) :
  callerNotEquivalent ext (store w) srs mapProfile ->
  sameSRS ext (Some srs) mapProfile w = Done None w.
Proof.
  unfold callerNotEquivalent, sameSRS. unfold_monad.
  destruct mapProfile as [p|]; [|reflexivity].
  intros (mp & Hp & He). rewrite Hp, He. reflexivity.
Qed.

Lemma selectProfile_same (caps : Capabilities) (srs : SpatialReference)
    (p : ProfilePtr) (mp : Profile) (w : World) :
  SpatialReference_create ext (_srs (this w)) = Some srs ->
  store w !! p = Some mp ->
  isEquivalentTo ext (getSRS mp) srs = true ->
  selectProfile ext caps (Some p) w = Done (Some p) w.
Proof.
  intros Hs Hp He. unfold selectProfile.
  unfold mbind, M_bind, bind, get_this. rewrite Hs.
  rewrite (sameSRS_equivalent srs p mp w Hp He). reflexivity.
Qed.

Lemma selectProfile_global (caps : Capabilities) (srs : SpatialReference)
    (mapProfile : option ProfilePtr) (layer : Layer) (g : ProfilePtr) (gg : Profile)
    (w : World) :
  SpatialReference_create ext (_srs (this w)) = Some srs ->
  callerNotEquivalent ext (store w) srs mapProfile ->
  getLayerByName caps (_layers (this w)) = Some layer ->
  isGeographic ext srs = true ->
  getGlobalGeodeticProfile ext = Some g ->
  store w !! g = Some gg ->
  double_eq (layer_minx layer) (xMin (getExtent gg)) &&
  double_eq (layer_miny layer) (yMin (getExtent gg)) &&
  double_eq (layer_maxx layer) (xMax (getExtent gg)) &&
  double_eq (layer_maxy layer) (yMax (getExtent gg)) = true ->
  selectProfile ext caps mapProfile w = Done (Some g) w.
Proof.
  intros Hs Hc Hl Hgeo Hg Hgg Heq. unfold selectProfile.
  unfold mbind, M_bind, bind, get_this. rewrite Hs.
  rewrite (sameSRS_not_applicable srs mapProfile w Hc).
  unfold fromLayerExtents, lastResort. unfold_monad. cbn.
  rewrite Hl. cbn. rewrite Hgeo, Hg. cbn. rewrite Hgg, Heq. reflexivity.
Qed.

Lemma selectProfile_fresh (caps : Capabilities) (srs : SpatialReference)
    (mapProfile : option ProfilePtr) (layer : Layer) (g : ProfilePtr) (gg : Profile)
    (w : World) :
  SpatialReference_create ext (_srs (this w)) = Some srs ->
  callerNotEquivalent ext (store w) srs mapProfile ->
  getLayerByName caps (_layers (this w)) = Some layer ->
  isGeographic ext srs = true ->
  getGlobalGeodeticProfile ext = Some g ->
  store w !! g = Some gg ->
  double_eq (layer_minx layer) (xMin (getExtent gg)) &&
  double_eq (layer_miny layer) (yMin (getExtent gg)) &&
  double_eq (layer_maxx layer) (xMax (getExtent gg)) &&
  double_eq (layer_maxy layer) (yMax (getExtent gg)) = false ->
  selectProfile ext caps mapProfile w =
    Done (Some (length (store w)))
      (mkWorld (this w)
         (store w ++
          [Profile_create ext (_srs (this w)) (layer_minx layer) (layer_miny layer)
             (layer_maxx layer) (layer_maxy layer)])%list
         (trace w)).
Proof.
  intros Hs Hc Hl Hgeo Hg Hgg Heq. unfold selectProfile.
  unfold mbind, M_bind, bind, get_this. rewrite Hs.
  rewrite (sameSRS_not_applicable srs mapProfile w Hc).
  unfold fromLayerExtents, lastResort. unfold_monad. cbn.
  rewrite Hl. cbn. rewrite Hgeo, Hg. cbn. rewrite Hgg, Heq. reflexivity.
Qed.

Lemma quiet_ret {A : Type} (a : A) : quiet (ret a : @M SpatialReference A).
Proof. intros w b w1 H. inversion H; subst. auto. Qed.

Lemma quiet_bind {A B : Type} (m : @M SpatialReference A) (k : A -> M B) :
  quiet m -> (forall a, quiet (k a)) -> quiet (m ≫= k).
Proof.
  intros Hm Hk w b w2. unfold mbind, M_bind, bind.
  destruct (m w) as [a w1|why w1] eqn:E; [|discriminate].
  intros H. destruct (Hm _ _ _ E) as [E1 E2]. destruct (Hk a _ _ _ H) as [E3 E4].
  split; congruence.
Qed.

Lemma quiet_get_this : quiet (get_this : @M SpatialReference _).
Proof. intros w a w1 H. inversion H; subst. auto. Qed.

Lemma quiet_deref {A : Type} (p : option A) : quiet (deref p : @M SpatialReference A).
Proof. destruct p; intros w b w1 H; inversion H; subst. auto. Qed.

Lemma quiet_load (p : option ProfilePtr) : quiet (load p : @M SpatialReference _).
Proof.
  intros w a w1 H. unfold load in H.
  destruct p as [q|]; [|discriminate].
  destruct (store w !! q); inversion H; subst. auto.
Qed.

Lemma quiet_allocate (o : @Profile SpatialReference) : quiet (allocate o).
Proof. intros w a w1 H. inversion H; subst. auto. Qed.

Ltac quiet_step :=
  match goal with
  | |- quiet (ret _) => apply quiet_ret
  | |- quiet get_this => apply quiet_get_this
  | |- quiet (deref _) => apply quiet_deref
  | |- quiet (load _) => apply quiet_load
  | |- quiet (allocate _) => apply quiet_allocate
  | |- quiet (_ ≫= _) => apply quiet_bind; [|intros ?]
  | |- quiet (match ?x with _ => _ end) => destruct x
  end.

Lemma quiet_sameSRS wms_srs mapProfile : quiet (sameSRS ext wms_srs mapProfile).
Proof. unfold sameSRS. repeat quiet_step. Qed.

Lemma quiet_fromLayerExtents caps wms_srs result :
  quiet (fromLayerExtents ext caps wms_srs result).
Proof. unfold fromLayerExtents. repeat quiet_step. Qed.

Lemma quiet_lastResort wms_srs mapProfile result :
  quiet (lastResort ext wms_srs mapProfile result).
Proof. unfold lastResort. repeat quiet_step. Qed.

(** Selection neither touches the members nor logs. *)
Lemma selectProfile_preserves (caps : Capabilities) (mapProfile : option ProfilePtr) :
  quiet (selectProfile ext caps mapProfile).
Proof.
  unfold selectProfile. repeat quiet_step;
    auto using quiet_sameSRS, quiet_fromLayerExtents, quiet_lastResort.
Qed.

(** *** Claims about [createProfile] *)

(** The run when the capabilities document cannot be read. *)
Lemma createProfile_unreadable
    (mapProfile : option ProfilePtr) (configPath : string) (w : World) :
  CapabilitiesReader_read ext (usedCapabilitiesURL (this w)) = None ->
  createProfile ext mapProfile configPath w =
    Done None
      (mkWorld (set_capabilitiesURL (usedCapabilitiesURL (this w)) (this w))
         (store w)
         (trace w ++
          [FetchCapabilities (usedCapabilitiesURL (this w));
           Notify WARN "[osgEarth::WMS] Unable to read WMS GetCapabilities; failing."])%list).
Proof.
  destruct w as [s st tr]. destruct s. intros H.
  unfold createProfile, deriveCapabilitiesURL, readCapabilities, usedCapabilitiesURL in *.
  unfold_monad. cbn in *.
  destruct _capabilitiesURL0; cbn in *; rewrite H; cbn;
    rewrite <- ?app_assoc; reflexivity.
Qed.

(** C5.  When the capabilities document cannot be read, [createProfile]
    returns [NULL] at once: the request prototype, the format, the reference
    and the tile-service members are left as they were, no profile object is
    created, and the only things observable are one capabilities fetch and
    the warning; the tile service is never fetched. *)
Theorem C5_capabilities_failure_is_fatal
    (mapProfile : option ProfilePtr) (configPath : string) (w : World) :
  CapabilitiesReader_read ext (usedCapabilitiesURL (this w)) = None ->
  exists w',
    createProfile ext mapProfile configPath w = Done None w' /\
    _prototype (this w') = _prototype (this w) /\
    _format (this w') = _format (this w) /\
    _srs (this w') = _srs (this w) /\
    _tileServiceURL (this w') = _tileServiceURL (this w) /\
    _tileService (this w') = _tileService (this w) /\
    store w' = store w /\
    trace w' =
      (trace w ++
       [FetchCapabilities (usedCapabilitiesURL (this w));
        Notify WARN "[osgEarth::WMS] Unable to read WMS GetCapabilities; failing."])%list.
Proof.
  intros H. eexists. split; [exact (createProfile_unreadable _ _ w H)|].
  cbn. repeat split.
Qed.

(** The run of the tile-service probe and of line 216 when no pattern
    overrides the selection. *)
Lemma finish_without_override (result : option ProfilePtr) (w : World) :
  matchingPatterns ext (this w) = [] ->
  exists w',
    finishProfile ext (separator (_prefix (this w))) result w = Done result w' /\
    store w' = store w /\
    _prototype (this w') = _prototype (this w) +:+ "&." +:+ _format (this w).
Proof.
  unfold matchingPatterns, finishProfile. intros H.
  destruct (TileServiceReader_read ext (usedTileServiceURL (this w))) as [ts|] eqn:E.
  - rewrite (bind_Done _ _ _ _ _ (probeTileService_no_match _ result w ts eq_refl E H)).
    rewrite (bind_Done _ _ _ _ _ (appendFormatSuffix_run _)).
    eexists. split; [reflexivity|].
    destruct w as [s st tr]; destruct s; cbn. auto.
  - rewrite (bind_Done _ _ _ _ _ (probeTileService_absent _ result w eq_refl E)).
    rewrite (bind_Done _ _ _ _ _ (appendFormatSuffix_run _)).
    eexists. split; [reflexivity|].
    destruct w as [s st tr]; destruct s; cbn. auto.
Qed.

(** C1.  When the resolved target reference is valid and equivalent to the
    reference of the caller's map profile, and no tile-service pattern
    overrides the selection, [createProfile] returns the caller's own
    pointer and creates no profile object, whatever the capabilities
    document holds. *)
Theorem C1_equivalent_reference_returns_caller_profile
    (p : ProfilePtr) (mp : Profile) (srs : SpatialReference)
    (caps : Capabilities) (configPath : string) (w : World) :
  CapabilitiesReader_read ext (usedCapabilitiesURL (this w)) = Some caps ->
  SpatialReference_create ext (resolvedSRS (this w)) = Some srs ->
  store w !! p = Some mp ->
  isEquivalentTo ext (getSRS mp) srs = true ->
  matchingPatterns ext (prepared (this w) caps) = [] ->
  exists w',
    createProfile ext (Some p) configPath w = Done (Some p) w' /\
    store w' = store w.
Proof.
  intros Hc Hs Hp He Hm.
  rewrite (createProfile_resolved _ _ caps w Hc).
  set (w0 := mkWorld (prepared (this w) caps) (store w) _).
  rewrite (bind_Done _ _ _ _ _ (selectProfile_same caps srs p mp w0 Hs Hp He)).
  destruct (finish_without_override (Some p) w0 Hm) as (w' & Hrun & Hst & _).
  exists w'. split; [exact Hrun | exact Hst].
Qed.

(** The four comparisons of lines 167-170 succeed exactly when the layer's
    bounds are the bounds of the canonical extent, provided those are
    neither NaN nor zero. *)
Lemma bounds_test_identity (layer : Layer) (e : GeoExtent) :
  nonzero_number (xMin e) = true -> nonzero_number (yMin e) = true ->
  nonzero_number (xMax e) = true -> nonzero_number (yMax e) = true ->
  (double_eq (layer_minx layer) (xMin e) &&
   double_eq (layer_miny layer) (yMin e) &&
   double_eq (layer_maxx layer) (xMax e) &&
   double_eq (layer_maxy layer) (yMax e) = true
   <-> sameBounds layer e).
Proof.
  intros H1 H2 H3 H4. unfold sameBounds.
  rewrite !andb_true_iff.
  rewrite (double_eq_identity _ _ H1), (double_eq_identity _ _ H2),
    (double_eq_identity _ _ H3), (double_eq_identity _ _ H4).
  tauto.
Qed.

(** C2.  Suppose strategy (a) does not apply, the requested layer is in the
    capabilities document, the target reference is geographic, and no
    tile-service pattern overrides the selection; the registry's canonical
    extent has ordinary bounds (no NaN, no zero).  If the layer's four
    bounds are those of the canonical extent, [createProfile] returns the
    registry's global-geodetic pointer and creates no object.  If any bound
    differs, it returns the address of a new object, the one
    [Profile::create] builds from the target reference and the layer's
    bounds. *)
Theorem C2_global_geodetic_singleton_or_new_profile
    (mapProfile : option ProfilePtr) (srs : SpatialReference)
    (caps : Capabilities) (layer : Layer) (g : ProfilePtr) (gg : Profile)
    (configPath : string) (w : World) :
  CapabilitiesReader_read ext (usedCapabilitiesURL (this w)) = Some caps ->
  SpatialReference_create ext (resolvedSRS (this w)) = Some srs ->
  callerNotEquivalent ext (store w) srs mapProfile ->
  getLayerByName caps (_layers (this w)) = Some layer ->
  isGeographic ext srs = true ->
  getGlobalGeodeticProfile ext = Some g ->
  store w !! g = Some gg ->
  nonzero_number (xMin (getExtent gg)) = true ->
  nonzero_number (yMin (getExtent gg)) = true ->
  nonzero_number (xMax (getExtent gg)) = true ->
  nonzero_number (yMax (getExtent gg)) = true ->
  matchingPatterns ext (prepared (this w) caps) = [] ->
  (sameBounds layer (getExtent gg) ->
   exists w',
     createProfile ext mapProfile configPath w = Done (Some g) w' /\
     store w' = store w)
  /\
  (~ sameBounds layer (getExtent gg) ->
   exists w',
     createProfile ext mapProfile configPath w = Done (Some (length (store w))) w' /\
     length (store w) <> g /\
     store w !! length (store w) = None /\
     store w' =
       (store w ++
        [Profile_create ext (resolvedSRS (this w)) (layer_minx layer)
           (layer_miny layer) (layer_maxx layer) (layer_maxy layer)])%list).
Proof.
  intros Hc Hs Hn Hl Hgeo Hg Hgg H1 H2 H3 H4 Hm.
  pose proof (bounds_test_identity layer (getExtent gg) H1 H2 H3 H4) as Hb.
  rewrite (createProfile_resolved _ _ caps w Hc).
  set (w0 := mkWorld (prepared (this w) caps) (store w) _).
  split; intros Hsame.
  - apply Hb in Hsame.
    rewrite (bind_Done _ _ _ _ _
               (selectProfile_global caps srs mapProfile layer g gg w0
                  Hs Hn Hl Hgeo Hg Hgg Hsame)).
    destruct (finish_without_override (Some g) w0 Hm) as (w' & Hrun & Hst & _).
    exists w'. split; [exact Hrun | exact Hst].
  - assert (Hfalse :
      double_eq (layer_minx layer) (xMin (getExtent gg)) &&
      double_eq (layer_miny layer) (yMin (getExtent gg)) &&
      double_eq (layer_maxx layer) (xMax (getExtent gg)) &&
      double_eq (layer_maxy layer) (yMax (getExtent gg)) = false).
    { apply not_true_is_false. intros Ht. apply Hsame, Hb, Ht. }
    rewrite (bind_Done _ _ _ _ _
               (selectProfile_fresh caps srs mapProfile layer g gg w0
                  Hs Hn Hl Hgeo Hg Hgg Hfalse)).
    destruct (finish_without_override (Some (length (store w0)))
                (mkWorld (this w0)
                   (store w0 ++
                    [Profile_create ext (_srs (this w0)) (layer_minx layer)
                       (layer_miny layer) (layer_maxx layer) (layer_maxy layer)])%list
                   (trace w0)) Hm)
      as (w' & Hrun & Hst & _).
    exists w'. split; [exact Hrun|]. split; [|split].
    + apply lookup_lt_Some in Hgg. lia.
    + apply lookup_ge_None. lia.
    + exact Hst.
Qed.

(** C3.  Whenever the capabilities document is read, profile selection has
    run to its end with whatever result [r0], and the tile-service document
    read by the probe offers at least one matching pattern, [createProfile]
    returns what the tile-service document's [createProfile] makes of the
    whole pattern list, not [r0], and the request prototype is the prefix,
    the separator, the first pattern's prototype and the format suffix. *)
Theorem C3_tile_service_overrides
    (mapProfile : option ProfilePtr) (caps : Capabilities) (configPath : string)
    (w w1 : World) (r0 : option ProfilePtr)
    (ts : TileService) (p0 : TilePattern) (ps : list TilePattern) :
  CapabilitiesReader_read ext (usedCapabilitiesURL (this w)) = Some caps ->
  selectProfile ext caps mapProfile
    (mkWorld (prepared (this w) caps) (store w)
       (trace w ++ preparationTrace (this w) caps)%list) = Done r0 w1 ->
  TileServiceReader_read ext (usedTileServiceURL (this w)) = Some ts ->
  getMatchingPatterns ts (_layers (this w)) (resolvedFormat (this w) caps)
    (_style (this w)) (resolvedSRS (this w)) (_tile_size (this w))
    (_tile_size (this w)) = p0 :: ps ->
  exists w',
    createProfile ext mapProfile configPath w =
      Done (fst (ts_createProfile ts (p0 :: ps) (store w1))) w' /\
    store w' = snd (ts_createProfile ts (p0 :: ps) (store w1)) /\
    _tileService (this w') = Some ts /\
    _prototype (this w') =
      (_prefix (this w) +:+ String (separator (_prefix (this w))) (getPrototype p0))
      +:+ "&." +:+ resolvedFormat (this w) caps.
Proof.
  intros Hc Hsel Hts Hpat.
  rewrite (createProfile_resolved _ _ caps w Hc).
  rewrite (bind_Done _ _ _ _ _ Hsel).
  destruct (selectProfile_preserves caps mapProfile _ _ _ Hsel) as [Hthis Htr].
  cbn [this] in Hthis. unfold finishProfile.
  assert (Hsep : separator (_prefix (this w)) = separator (_prefix (this w1))).
  { rewrite Hthis. destruct w as [s st tr]; destruct s; reflexivity. }
  assert (Hts1 : TileServiceReader_read ext (usedTileServiceURL (this w1)) = Some ts).
  { rewrite Hthis. destruct w as [s st tr]; destruct s; exact Hts. }
  assert (Hpat1 :
    getMatchingPatterns ts (_layers (this w1)) (_format (this w1)) (_style (this w1))
      (_srs (this w1)) (_tile_size (this w1)) (_tile_size (this w1)) = p0 :: ps).
  { rewrite Hthis. destruct w as [s st tr]; destruct s; exact Hpat. }
  rewrite (bind_Done _ _ _ _ _ (probeTileService_match _ r0 w1 ts p0 ps Hsep Hts1 Hpat1)).
  rewrite (bind_Done _ _ _ _ _ (appendFormatSuffix_run _)).
  eexists. split; [reflexivity|]. cbn. rewrite Hthis.
  destruct w as [s st tr]; destruct s; cbn. auto.
Qed.

(** Selection runs to its end when the target reference is valid and the
    pointers it follows are live. *)
Lemma selectProfile_completes (caps : Capabilities) (srs : SpatialReference)
    (mapProfile : option ProfilePtr) (w : World) :
  SpatialReference_create ext (_srs (this w)) = Some srs ->
  (forall p, mapProfile = Some p -> is_Some (store w !! p)) ->
  (isGeographic ext srs = true ->
   exists g, getGlobalGeodeticProfile ext = Some g /\ is_Some (store w !! g)) ->
  exists r w1, selectProfile ext caps mapProfile w = Done r w1.
Proof.
  intros Hs Hmp Hgg. unfold selectProfile, sameSRS, fromLayerExtents, lastResort.
  unfold_monad. rewrite Hs.
  assert (Hload : forall q, mapProfile = Some q -> exists mp, store w !! q = Some mp).
  { intros q Hq. destruct (Hmp q Hq) as [mp E]. eauto. }
  destruct mapProfile as [p|]; cbn.
  - destruct (Hload p eq_refl) as [mp Ep]. rewrite Ep.
    destruct (isEquivalentTo ext (getSRS mp) srs); cbn; [eauto|].
    destruct (getLayerByName caps (_layers (this w))) as [layer|]; cbn.
    + destruct (isGeographic ext srs) eqn:Hgeo; cbn; [|eauto].
      destruct (Hgg eq_refl) as (g & Eg & gg & Egg). rewrite Eg. cbn. rewrite Egg.
      destruct (_ && _); cbn; eauto.
    + destruct (isGeographic ext srs); cbn; [|eauto]. rewrite Ep.
      destruct (negb _); eauto.
  - destruct (getLayerByName caps (_layers (this w))) as [layer|]; cbn.
    + destruct (isGeographic ext srs) eqn:Hgeo; cbn; [|eauto].
      destruct (Hgg eq_refl) as (g & Eg & gg & Egg). rewrite Eg. cbn. rewrite Egg.
      destruct (_ && _); cbn; eauto.
    + destruct (isGeographic ext srs); eauto.
Qed.

(** With a target reference that [SpatialReference::create] rejects, the
    run dereferences the null [wms_srs] at line 164 or at line 185. *)
Lemma selectProfile_invalid_reference (caps : Capabilities)
    (mapProfile : option ProfilePtr) (w : World) :
  SpatialReference_create ext (_srs (this w)) = None ->
  selectProfile ext caps mapProfile w = Aborted NullDereference w.
Proof.
  intros Hs. unfold selectProfile, sameSRS, fromLayerExtents, lastResort.
  unfold_monad. rewrite Hs.
  destruct (getLayerByName caps (_layers (this w))); reflexivity.
Qed.

Lemma prepared_format_default (s : @WMSSource SpatialReference) (caps : Capabilities) :
  _format s = EmptyString ->
  _format (prepared s caps) =
    (if empty_string (suggestExtension caps) then "png" else suggestExtension caps).
Proof. destruct s; cbn. intros ->. reflexivity. Qed.

Lemma prepared_prototype_default (s : @WMSSource SpatialReference) (caps : Capabilities) :
  _format s = EmptyString -> _wms_format s = EmptyString ->
  _prototype (prepared s caps) =
    _prefix s +:+ String (separator (_prefix s))
      ("SERVICE=WMS&VERSION=1.1.1&REQUEST=GetMap"
       +:+ "&LAYERS=" +:+ _layers s
       +:+ "&FORMAT="
       +:+ ("image/" +:+
            (if empty_string (suggestExtension caps) then "png"
             else suggestExtension caps))
       +:+ "&STYLES=" +:+ _style s
       +:+ "&SRS=" +:+ resolvedSRS s
       +:+ "&WIDTH=" +:+ string_of_int (_tile_size s)
       +:+ "&HEIGHT=" +:+ string_of_int (_tile_size s)
       +:+ "&BBOX=%lf,%lf,%lf,%lf").
Proof. destruct s; cbn. intros -> ->. reflexivity. Qed.

(** C6.  For a source constructed from options that configure neither
    [format] nor [wms_format], and a capabilities document that was read,
    the GetMap request built at lines 131-142 carries
    [FORMAT=image/<ext>], where [<ext>] is the document's suggested
    extension, or [png] when it suggests none; and a run that ends without
    a tile-service override leaves that request, followed by the format
    suffix, as the prototype. *)
Theorem C6_default_format_parameter
    (options : gmap string string) (st : Store) (tr : list Event)
    (mapProfile : option ProfilePtr) (configPath : string) (caps : Capabilities) :
  let s := WMSSource_new ext options in
  let w := mkWorld s st tr in
  let extension :=
    if empty_string (suggestExtension caps) then "png" else suggestExtension caps in
  let request :=
    _prefix s +:+ String (separator (_prefix s))
      ("SERVICE=WMS&VERSION=1.1.1&REQUEST=GetMap"
       +:+ "&LAYERS=" +:+ _layers s
       +:+ "&FORMAT=" +:+ ("image/" +:+ extension)
       +:+ "&STYLES=" +:+ _style s
       +:+ "&SRS=" +:+ resolvedSRS s
       +:+ "&WIDTH=" +:+ string_of_int (_tile_size s)
       +:+ "&HEIGHT=" +:+ string_of_int (_tile_size s)
       +:+ "&BBOX=%lf,%lf,%lf,%lf") in
  getPluginData options "format" = None ->
  getPluginData options "wms_format" = None ->
  CapabilitiesReader_read ext (usedCapabilitiesURL s) = Some caps ->
  (exists s1,
     _prototype s1 = request /\
     createProfile ext mapProfile configPath w =
       (result ← selectProfile ext caps mapProfile;
        finishProfile ext (separator (_prefix s)) result)
       (mkWorld s1 st (tr ++ preparationTrace s caps)%list))
  /\
  (forall r w',
     createProfile ext mapProfile configPath w = Done r w' ->
     matchingPatterns ext (prepared s caps) = [] ->
     _prototype (this w') = request +:+ "&." +:+ extension).
Proof.
  intros s w extension request Hf Hw Hc.
  assert (Ef : _format s = EmptyString).
  { unfold s, WMSSource_new, configured. cbn. rewrite Hf. reflexivity. }
  assert (Ew : _wms_format s = EmptyString).
  { unfold s, WMSSource_new, configured. cbn. rewrite Hw. reflexivity. }
  assert (Ereq : _prototype (prepared s caps) = request).
  { exact (prepared_prototype_default s caps Ef Ew). }
  assert (Efmt : _format (prepared s caps) = extension).
  { exact (prepared_format_default s caps Ef). }
  pose proof (createProfile_resolved mapProfile configPath caps w Hc) as Hrun.
  cbn [this store trace w] in Hrun.
  split.
  - exists (prepared s caps). split; [exact Ereq | exact Hrun].
  - intros r w' Hdone Hm. rewrite Hrun in Hdone.
    destruct (selectProfile ext caps mapProfile
                (mkWorld (prepared s caps) st (tr ++ preparationTrace s caps)%list))
      as [r0 w1|why w1] eqn:Hsel;
      [rewrite (bind_Done _ _ _ _ _ Hsel) in Hdone
      |rewrite (bind_Aborted _ _ _ _ _ Hsel) in Hdone; discriminate].
    destruct (selectProfile_preserves caps mapProfile _ _ _ Hsel) as [Hthis _].
    cbn [this] in Hthis.
    assert (Hm1 : matchingPatterns ext (this w1) = []) by (rewrite Hthis; exact Hm).
    destruct (finish_without_override r0 w1 Hm1) as (w2 & Hfin & _ & Hproto).
    assert (Hsep : separator (_prefix (this w1)) = separator (_prefix s)).
    { rewrite Hthis. reflexivity. }
    rewrite Hsep in Hfin. rewrite Hfin in Hdone. inversion Hdone; subst w2.
    rewrite Hproto, Hthis, Ereq, Efmt. reflexivity.
Qed.

(** [createProfile] leaves the elevation unit as the constructor stored it. *)
Lemma createProfile_keeps_unit
    (mapProfile : option ProfilePtr) (configPath : string) (w w' : World)
    (r : option ProfilePtr) :
  createProfile ext mapProfile configPath w = Done r w' ->
  _elevation_unit (this w') = _elevation_unit (this w).
Proof.
  destruct (CapabilitiesReader_read ext (usedCapabilitiesURL (this w))) as [caps|] eqn:Hc.
  - rewrite (createProfile_resolved _ _ caps w Hc).
    set (w0 := mkWorld (prepared (this w) caps) (store w) _).
    destruct (selectProfile ext caps mapProfile w0) as [r0 w1|why w1] eqn:Hsel;
      [rewrite (bind_Done _ _ _ _ _ Hsel)
      |rewrite (bind_Aborted _ _ _ _ _ Hsel); discriminate].
    destruct (selectProfile_preserves caps mapProfile _ _ _ Hsel) as [Hthis _].
    cbn [this w0] in Hthis.
    assert (Hsep : separator (_prefix (this w)) = separator (_prefix (this w1))).
    { rewrite Hthis. destruct w as [s st tr]; destruct s; reflexivity. }
    rewrite Hsep. unfold finishProfile.
    destruct (TileServiceReader_read ext (usedTileServiceURL (this w1))) as [ts|] eqn:Ets.
    + destruct (getMatchingPatterns ts (_layers (this w1)) (_format (this w1))
                  (_style (this w1)) (_srs (this w1)) (_tile_size (this w1))
                  (_tile_size (this w1))) as [|p0 ps] eqn:Ep.
      * rewrite (bind_Done _ _ _ _ _ (probeTileService_no_match _ r0 w1 ts eq_refl Ets Ep)).
        rewrite (bind_Done _ _ _ _ _ (appendFormatSuffix_run _)).
        intros H. inversion H; subst. cbn. rewrite Hthis.
        destruct w as [s st tr]; destruct s; reflexivity.
      * rewrite (bind_Done _ _ _ _ _ (probeTileService_match _ r0 w1 ts p0 ps eq_refl Ets Ep)).
        rewrite (bind_Done _ _ _ _ _ (appendFormatSuffix_run _)).
        intros H. inversion H; subst. cbn. rewrite Hthis.
        destruct w as [s st tr]; destruct s; reflexivity.
    + rewrite (bind_Done _ _ _ _ _ (probeTileService_absent _ r0 w1 eq_refl Ets)).
      rewrite (bind_Done _ _ _ _ _ (appendFormatSuffix_run _)).
      intros H. inversion H; subst. cbn. rewrite Hthis.
      destruct w as [s st tr]; destruct s; reflexivity.
  - rewrite (createProfile_unreadable _ _ w Hc). intros H. inversion H; subst.
    reflexivity.
Qed.

(** *** Claims about the constructor and [createHeightField] *)

(** The bounds of a tile key, in the order [createURI] passes them. *)
Lemma createURI_run (key : TileKey) (w : @World SpatialReference) (uri : string) :
  sprintf 2048 (_prototype (this w)) (keyBounds key) = Rendered uri ->
  createURI key w = Done uri w.
Proof.
  intros H. unfold createURI, keyBounds in *. unfold_monad. rewrite H. reflexivity.
Qed.

Lemma createURI_abort (key : TileKey) (w : @World SpatialReference) (why : Abort) :
  sprintf 2048 (_prototype (this w)) (keyBounds key) = Misprinted why ->
  createURI key w = Aborted why w.
Proof.
  intros H. unfold createURI, keyBounds in *. unfold_monad. rewrite H. reflexivity.
Qed.

Lemma createImage_run (key : TileKey) (w : World) (uri : string) :
  sprintf 2048 (_prototype (this w)) (keyBounds key) = Rendered uri ->
  createImage ext key w =
    Done (readImageFile ext uri)
      (mkWorld (this w) (store w) (trace w ++ [FetchImage uri])%list).
Proof.
  intros H. unfold createImage.
  rewrite (bind_Done _ _ _ _ _ (createURI_run key w uri H)). reflexivity.
Qed.

Lemma createHeightField_run (key : TileKey) (w : World) (uri : string) :
  sprintf 2048 (_prototype (this w)) (keyBounds key) = Rendered uri ->
  createHeightField ext key w =
    Done (convert ext (readImageFile ext uri) (scaleFactor (_elevation_unit (this w))))
      (mkWorld (this w) (store w)
         (trace w ++
          FetchImage uri ::
          (if is_null (readImageFile ext uri)
           then [Notify INFO ("[osgEarth::WMS] Failed to read heightfield from " +:+ uri)]
           else []))%list).
Proof.
  intros H. unfold createHeightField.
  rewrite (bind_Done _ _ _ _ _ (createImage_run key w uri H)).
  destruct (readImageFile ext uri) as [image|]; cbn [is_null when].
  - reflexivity.
  - set (w1 := mkWorld (this w) (store w) (trace w ++ [FetchImage uri])%list).
    assert (H1 : createURI key w1 = Done uri w1) by (apply createURI_run; exact H).
    rewrite (bind_Done _ _ w1 _ tt
               (bind_Done _ (fun u => notify INFO _) w1 w1 uri H1)).
    cbn. rewrite <- app_assoc. reflexivity.
Qed.

(** C8.  When the image fetch for a tile key fails, [createHeightField]
    does not fail: it logs one line naming the URI, hands a null image to
    the converter and returns whatever the converter makes of it. *)
Theorem C8_fetch_failure_is_degraded
    (key : TileKey) (w : World) (uri : string) :
  sprintf 2048 (_prototype (this w)) (keyBounds key) = Rendered uri ->
  readImageFile ext uri = None ->
  createHeightField ext key w =
    Done (convert ext None (scaleFactor (_elevation_unit (this w))))
      (mkWorld (this w) (store w)
         (trace w ++
          [FetchImage uri;
           Notify INFO ("[osgEarth::WMS] Failed to read heightfield from " +:+ uri)])%list).
Proof.
  intros Huri Himg. rewrite (createHeightField_run key w uri Huri), Himg. reflexivity.
Qed.

(** C9, as amended.  The constructor stores ["m"] when [elevation_unit] is
    not configured or is configured empty, and stores any other configured
    string as it is; the stored unit is never empty. *)
Theorem C9_elevation_unit_as_configured (options : gmap string string) :
  _elevation_unit (WMSSource_new ext options) =
    match getPluginData options "elevation_unit" with
    | None => "m"
    | Some v => if empty_string v then "m" else v
    end
  /\ _elevation_unit (WMSSource_new ext options) <> EmptyString.
Proof.
  unfold WMSSource_new, configured. cbn.
  destruct (getPluginData options "elevation_unit") as [v|]; cbn.
  - destruct v; cbn; split; [reflexivity|discriminate|reflexivity|discriminate].
  - split; [reflexivity|discriminate].
Qed.

(** C10.  The unit test of line 243 is exact string equality with ["ft"]:
    a configured unit that is neither empty nor ["ft"] (["FT"], ["Ft"],
    ["feet"], anything) is stored unchanged by the constructor, is still the
    stored unit after [createProfile], and makes [createHeightField] hand
    the converter the factor [1], the factor of ["m"]. *)
Theorem C10_unit_test_is_exact
    (options : gmap string string) (v : string)
    (st : Store) (tr : list Event)
    (mapProfile : option ProfilePtr) (configPath : string)
    (r : option ProfilePtr) (w : World)
    (key : TileKey) (uri : string) :
  getPluginData options "elevation_unit" = Some v ->
  v <> EmptyString ->
  v <> "ft" ->
  createProfile ext mapProfile configPath
    (mkWorld (WMSSource_new ext options) st tr) = Done r w ->
  sprintf 2048 (_prototype (this w)) (keyBounds key) = Rendered uri ->
  _elevation_unit (WMSSource_new ext options) = v /\
  _elevation_unit (this w) = v /\
  scaleFactor v = 1%Q /\
  scaleFactor v = scaleFactor "m" /\
  exists w',
    createHeightField ext key w = Done (convert ext (readImageFile ext uri) 1%Q) w'.
Proof.
  intros Hv Hne Hft Hrun Huri.
  assert (Hstored : _elevation_unit (WMSSource_new ext options) = v).
  { unfold WMSSource_new, configured. cbn. rewrite Hv.
    destruct v; [contradiction|reflexivity]. }
  assert (Hunit : _elevation_unit (this w) = v).
  { rewrite (createProfile_keeps_unit _ _ _ _ _ Hrun). exact Hstored. }
  assert (Hscale : scaleFactor v = 1%Q).
  { unfold scaleFactor. destruct (String.eqb v "ft") eqn:E; [|reflexivity].
    apply String.eqb_eq in E. contradiction. }
  repeat split; try assumption.
  eexists. rewrite (createHeightField_run key w uri Huri).
  rewrite Hunit, Hscale. reflexivity.
Qed.

End Proofs.

(** *** The converter and the unit scale *)

Section Converter.

Context {SpatialReference Image : Type}.
Variable ext : @Collaborators SpatialReference Image (list float).
Variable samples : Image -> list float.
Variable mul : float -> float -> float.




End Converter.

(** [float_0_3048] is a binary32 value (a 24-bit mantissa times [2^-25])
    and no binary32 value is nearer to [0.3048]: it is off by less than
    half a unit in the last place. *)
Lemma float_0_3048_is_nearest_binary32 :
  float_0_3048 = (10227391 # 33554432)%Q /\
  (33554432 = 2 ^ 25)%positive /\
  2 ^ 23 <= 10227391 < 2 ^ 24 /\
  (3048 # 10000 < float_0_3048)%Q /\
  (float_0_3048 - (3048 # 10000) < 1 # 67108864)%Q.
Proof.
  split; [reflexivity|]. split; [reflexivity|]. split; [lia|].
  split; reflexivity.
Qed.

(** The literal goes through a [double] first.  Any number as near to
    [0.3048] as a [double] can be (within [2^-50], far more than the
    rounding to binary64 moves it) still lies strictly within half a unit
    in the last place of [float_0_3048], so the conversion to binary32
    lands there too. *)
Lemma float_0_3048_through_double (x : Q) :
  ((3048 # 10000) - (1 # 1125899906842624) < x)%Q ->
  (x < (3048 # 10000) + (1 # 1125899906842624))%Q ->
  (float_0_3048 - (1 # 67108864) < x)%Q /\ (x < float_0_3048 + (1 # 67108864))%Q.
Proof. unfold float_0_3048. intros Hlo Hhi. split; lra. Qed.

(** *** Rendering the prototype *)

Lemma append_cons (x : ascii) (a b : string) :
  String x a +:+ b = String x (a +:+ b).
Proof. reflexivity. Qed.

Lemma append_assoc (a b c : string) : (a +:+ b) +:+ c = a +:+ b +:+ c.
Proof.
  induction a as [|x a IH]; [reflexivity|].
  rewrite !append_cons, IH. reflexivity.
Qed.

Lemma append_nil_r (a : string) : a +:+ EmptyString = a.
Proof.
  induction a as [|x a IH]; [reflexivity|].
  rewrite append_cons, IH. reflexivity.
Qed.

Lemma contains_char_append (c : ascii) (a b : string) :
  contains_char c (a +:+ b) = contains_char c a || contains_char c b.
Proof.
  induction a as [|x a IH]; [reflexivity|].
  rewrite append_cons. cbn [contains_char]. rewrite IH, orb_assoc. reflexivity.
Qed.

Lemma emit_emit (a b : string) (p : Printed) :
  emit a (emit b p) = emit (a +:+ b) p.
Proof. destruct p; unfold emit; [rewrite append_assoc|]; reflexivity. Qed.

Lemma emit_nil (p : Printed) : emit EmptyString p = p.
Proof. destruct p; reflexivity. Qed.

(** Text without a percent sign is copied. *)
Lemma vformat_plain (s rest : string) (args : list double) :
  contains_char "%" s = false ->
  vformat (s +:+ rest) args = emit s (vformat rest args).
Proof.
  induction s as [|c s IH]; intros H.
  - change (EmptyString +:+ rest) with rest. rewrite emit_nil. reflexivity.
  - cbn [contains_char] in H. apply orb_false_iff in H as [Hc Hs].
    rewrite append_cons. cbn [vformat]. rewrite Hc, (IH Hs), emit_emit. reflexivity.
Qed.

Lemma vformat_bbox (suffix : string) (a b c d : double) :
  contains_char "%" suffix = false ->
  vformat ("&BBOX=%lf,%lf,%lf,%lf" +:+ suffix) [a; b; c; d] =
    Rendered ("&BBOX=" +:+ format_lf a +:+ "," +:+ format_lf b +:+ ","
              +:+ format_lf c +:+ "," +:+ format_lf d +:+ suffix).
Proof.
  intros H.
  pose proof (vformat_plain suffix EmptyString [] H) as Hs.
  rewrite append_nil_r in Hs. cbn [vformat emit] in Hs.
  rewrite append_nil_r in Hs.
  rewrite !append_cons. change (EmptyString +:+ suffix) with suffix.
  cbn. rewrite Hs. reflexivity.
Qed.

(** A prototype whose only conversions are the four of its [BBOX]
    parameter renders, when the result fits the buffer, with the key's four
    bounds in the order [minx, miny, maxx, maxy], each as a fixed-point
    decimal. *)
Lemma createURI_round_trip {SpatialReference : Type}
    (key : TileKey) (w : @World SpatialReference) (front suffix : string) :
  let e := getGeoExtent key in
  let uri :=
    front +:+ "&BBOX=" +:+ format_lf (xMin e) +:+ "," +:+ format_lf (yMin e) +:+ ","
    +:+ format_lf (xMax e) +:+ "," +:+ format_lf (yMax e) +:+ suffix in
  _prototype (this w) = front +:+ "&BBOX=%lf,%lf,%lf,%lf" +:+ suffix ->
  contains_char "%" front = false ->
  contains_char "%" suffix = false ->
  (String.length uri < 2048)%nat ->
  createURI key w = Done uri w.
Proof.
  intros e uri Hp Hf Hs Hlen. apply createURI_run.
  unfold sprintf, keyBounds. fold e. rewrite Hp.
  rewrite (vformat_plain front _ _ Hf), (vformat_bbox suffix _ _ _ _ Hs).
  cbn [emit]. fold uri.
  apply Nat.ltb_lt in Hlen. rewrite Hlen. reflexivity.
Qed.

Lemma digits_percent_free (d : Decimal.uint) :
  contains_char "%" (NilEmpty.string_of_uint d) = false.
Proof. induction d; cbn; auto. Qed.

Lemma string_of_int_percent_free (z : Z) :
  contains_char "%" (string_of_int z) = false.
Proof.
  assert (H : forall d, contains_char "%" (NilZero.string_of_uint d) = false).
  { intros d. destruct d; try reflexivity; apply (digits_percent_free (_ d)). }
  destruct z as [|p|p]; [reflexivity|apply H|].
  unfold string_of_int. rewrite contains_char_append, H. reflexivity.
Qed.

Lemma getMapRequest_shape {SpatialReference : Type}
    (s : @WMSSource SpatialReference) (sep : ascii) :
  getMapRequest s sep = requestFront s sep +:+ "&BBOX=%lf,%lf,%lf,%lf".
Proof.
  unfold getMapRequest, requestFront.
  rewrite (append_assoc (_prefix s)), (append_cons sep), !append_assoc. reflexivity.
Qed.

Lemma requestFront_percent_free {SpatialReference : Type}
    (s : @WMSSource SpatialReference) :
  contains_char "%" (_prefix s) = false ->
  contains_char "%" (_layers s) = false ->
  contains_char "%" (_style s) = false ->
  contains_char "%" (_wms_format s) = false ->
  contains_char "%" (_format s) = false ->
  contains_char "%" (_srs s) = false ->
  contains_char "%" (requestFront s (separator (_prefix s))) = false.
Proof.
  intros Hp Hl Hst Hw Hf Hs. unfold requestFront.
  rewrite contains_char_append, Hp. cbn [orb contains_char].
  assert (Hsep : Ascii.eqb (separator (_prefix s)) "%" = false).
  { unfold separator. destruct (contains_char "?" (_prefix s)); reflexivity. }
  rewrite Hsep. cbn [orb].
  rewrite !contains_char_append, Hl, Hst, Hs, !string_of_int_percent_free.
  destruct (empty_string (_wms_format s));
    rewrite ?contains_char_append, ?Hw, ?Hf; reflexivity.
Qed.

(** A prototype of the standard shape, built from configured text without
    percent signs, renders the key's bounds in order whenever the result
    fits the buffer. *)
Lemma createURI_standard_request {SpatialReference : Type}
    (key : TileKey) (w : @World SpatialReference) (s : @WMSSource SpatialReference) :
  let e := getGeoExtent key in
  let uri :=
    requestFront s (separator (_prefix s)) +:+ "&BBOX=" +:+ format_lf (xMin e) +:+ ","
    +:+ format_lf (yMin e) +:+ "," +:+ format_lf (xMax e) +:+ ","
    +:+ format_lf (yMax e) +:+ "&." +:+ _format s in
  _prototype (this w) = getMapRequest s (separator (_prefix s)) +:+ "&." +:+ _format s ->
  contains_char "%" (_prefix s) = false ->
  contains_char "%" (_layers s) = false ->
  contains_char "%" (_style s) = false ->
  contains_char "%" (_wms_format s) = false ->
  contains_char "%" (_format s) = false ->
  contains_char "%" (_srs s) = false ->
  (String.length uri < 2048)%nat ->
  createURI key w = Done uri w.
Proof.
  intros e uri Hproto Hp Hl Hst Hw Hf Hs Hlen.
  apply (createURI_round_trip key w (requestFront s (separator (_prefix s)))
           ("&." +:+ _format s)).
  - rewrite Hproto, getMapRequest_shape, append_assoc. reflexivity.
  - apply requestFront_percent_free; assumption.
  - rewrite contains_char_append, Hf. reflexivity.
  - exact Hlen.
Qed.

(** Line 104: the separator is [?] for a prefix without a question mark
    and [&] for a prefix that has one. *)
Lemma separator_spec (prefix : string) :
  (contains_char "?" prefix = false -> separator prefix = "?"%char) /\
  (contains_char "?" prefix = true -> separator prefix = "&"%char).
Proof. unfold separator. split; intros ->; reflexivity. Qed.

(** [==] is not identity of the datum at the zeros and at NaN. *)
Example double_eq_zero_nan :
  double_eq (S754_zero true) (S754_zero false) = true /\
  double_eq S754_nan S754_nan = false.
Proof. split; reflexivity. Qed.

(** ** Concrete runs *)

(** The end-to-end scenario: prefix [http://x/wms], layer [basic] with the
    whole-Earth extent, no format configured and none suggested, a caller
    whose profile is not equivalent.  The resolved profile is the registry's
    singleton and the prototype ends in [&.png]. *)
Example resolve_basic_layer :
  exists w',
    createProfile (demo_ext None None) (Some 1%nat) EmptyString
      (demo_world None "http://x/wms" "basic" EmptyString) = Done (Some 0%nat) w' /\
    store w' = demo_store /\
    _prototype (this w') =
      "http://x/wms?SERVICE=WMS&VERSION=1.1.1&REQUEST=GetMap&LAYERS=basic&FORMAT=image/png&STYLES=&SRS=EPSG:4326&WIDTH=256&HEIGHT=256&BBOX=%lf,%lf,%lf,%lf&.png".
Proof. eexists. vm_compute. repeat split. Qed.

Example resolve_europe_layer :
  exists w',
    createProfile (demo_ext None None) (Some 1%nat) EmptyString
      (demo_world None "http://x/wms" "europe" EmptyString) = Done (Some 2%nat) w' /\
    store w' =
      (demo_store ++
       [mkProfile "EPSG:4326"
          (mkGeoExtent (double_of_Z (-10)) (double_of_Z 35)
             (double_of_Z 30) (double_of_Z 70))
          TYPE_GEODETIC])%list.
Proof. eexists. vm_compute. repeat split. Qed.

Example render_basic_tile :
  createURI demo_key (demo_resolved "basic" "m") =
    Done
      "http://x/wms?SERVICE=WMS&VERSION=1.1.1&REQUEST=GetMap&LAYERS=basic&FORMAT=image/png&STYLES=&SRS=EPSG:4326&WIDTH=256&HEIGHT=256&BBOX=-180.000000,-90.000000,0.000000,90.000000&.png"
      (demo_resolved "basic" "m").
Proof. vm_compute. reflexivity. Qed.

(** ** [createURI] at inputs it does not guard against *)

(** C4.  [createURI] hands the prototype to [sprintf] as a format string
    with a 2048-byte buffer, and the prototype embeds configured text
    unescaped.  (1) With the layer name [%lf] the prototype holds five
    conversions for four arguments: the first bound is printed in the
    [LAYERS] parameter, [BBOX] starts at [miny] (shown for any fifth
    argument [x] the call might pick up), and the call itself runs out of
    arguments.  (2) With a 2057-character URL the rendering overruns the
    buffer. *)
Theorem C4_createURI_is_unguarded :
  (exists w',
     createProfile (demo_ext None None) (Some 0%nat) EmptyString
       (demo_world None "http://x/wms" "%lf" EmptyString) = Done (Some 0%nat) w' /\
     _prototype (this w') =
       "http://x/wms?SERVICE=WMS&VERSION=1.1.1&REQUEST=GetMap&LAYERS=%lf&FORMAT=image/png&STYLES=&SRS=EPSG:4326&WIDTH=256&HEIGHT=256&BBOX=%lf,%lf,%lf,%lf&.png" /\
     keyBounds demo_key = map double_of_Z [-180; -90; 0; 90] /\
     createURI demo_key w' = Aborted FormatArgumentMissing w' /\
     forall x : double,
       vformat (_prototype (this w')) (keyBounds demo_key ++ [x])%list =
         Rendered
           ("http://x/wms?SERVICE=WMS&VERSION=1.1.1&REQUEST=GetMap&LAYERS=-180.000000&FORMAT=image/png&STYLES=&SRS=EPSG:4326&WIDTH=256&HEIGHT=256&BBOX=-90.000000,0.000000,90.000000,"
            +:+ format_lf x +:+ "&.png"))
  /\
  (exists w',
     createProfile (demo_ext None None) (Some 0%nat) EmptyString
       (demo_world None long_url "basic" EmptyString) = Done (Some 0%nat) w' /\
     createURI demo_key w' = Aborted BufferOverrun w').
Proof.
  split.
  - eexists. split; [vm_compute; reflexivity|].
    split; [vm_compute; reflexivity|].
    split; [vm_compute; reflexivity|].
    split; [vm_compute; reflexivity|].
    intros x. reflexivity.
  - eexists. split; [vm_compute; reflexivity|]. vm_compute. reflexivity.
Qed.

(** ** The theorems at concrete inputs *)

Lemma C1_witness :
  exists w',
    createProfile (demo_ext None None) (Some 0%nat) EmptyString
      (demo_world None "http://x/wms" "europe" EmptyString) = Done (Some 0%nat) w' /\
    store w' = store (demo_world None "http://x/wms" "europe" EmptyString).
Proof.
  apply (C1_equivalent_reference_returns_caller_profile (demo_ext None None)
           0%nat demo_global_geodetic "EPSG:4326" demo_capabilities EmptyString
           (demo_world None "http://x/wms" "europe" EmptyString));
    vm_compute; reflexivity.
Defined.

Lemma C2_witness :
  let w := demo_world None "http://x/wms" "basic" EmptyString in
  let layer :=
    mkLayer (double_of_Z (-180)) (double_of_Z (-90))
      (double_of_Z 180) (double_of_Z 90) in
  (sameBounds layer world_extent ->
   exists w',
     createProfile (demo_ext None None) (Some 1%nat) EmptyString w = Done (Some 0%nat) w' /\
     store w' = store w)
  /\
  (~ sameBounds layer world_extent ->
   exists w',
     createProfile (demo_ext None None) (Some 1%nat) EmptyString w
       = Done (Some (length (store w))) w' /\
     length (store w) <> 0%nat /\
     store w !! length (store w) = None /\
     store w' =
       (store w ++
        [Profile_create (demo_ext None None) (resolvedSRS (this w))
           (layer_minx layer) (layer_miny layer) (layer_maxx layer)
           (layer_maxy layer)])%list).
Proof.
  apply (C2_global_geodetic_singleton_or_new_profile (demo_ext None None)
           (Some 1%nat) "EPSG:4326" demo_capabilities
           (mkLayer (double_of_Z (-180)) (double_of_Z (-90))
              (double_of_Z 180) (double_of_Z 90))
           0%nat demo_global_geodetic EmptyString
           (demo_world None "http://x/wms" "basic" EmptyString));
    try (vm_compute; reflexivity).
  exists demo_mercator. split; vm_compute; reflexivity.
Defined.

Lemma C3_witness :
  exists w',
    createProfile (demo_ext (Some demo_tile_service) None) (Some 1%nat) EmptyString
      (demo_world (Some demo_tile_service) "http://x/wms" "basic" EmptyString)
      = Done (Some 2%nat) w' /\
    _prototype (this w') =
      "http://x/wms?request=GetMap&layers=global_mosaic&srs=EPSG:4326&format=image/jpeg&styles=t1&width=512&height=512&bbox=%lf,%lf,%lf,%lf&.png".
Proof.
  pose (w := demo_world (Some demo_tile_service) "http://x/wms" "basic" EmptyString).
  destruct (C3_tile_service_overrides (demo_ext (Some demo_tile_service) None)
              (Some 1%nat) demo_capabilities EmptyString w
              (mkWorld (prepared (this w) demo_capabilities) (store w)
                 (trace w ++ preparationTrace (this w) demo_capabilities)%list)
              (Some 0%nat) demo_tile_service demo_pattern [demo_pattern_pan]
              eq_refl eq_refl eq_refl eq_refl)
    as (w' & Hrun & _ & _ & Hproto).
  exists w'. split; [exact Hrun | exact Hproto].
Defined.

Lemma C5_witness :
  exists w',
    createProfile (demo_ext None None) (Some 0%nat) EmptyString
      (demo_world None "http://y/wms" "basic" EmptyString) = Done None w' /\
    _prototype (this w') = EmptyString /\
    store w' = demo_store /\
    trace w' =
      [FetchCapabilities "http://y/wms?SERVICE=WMS&VERSION=1.1.1&REQUEST=GetCapabilities";
       Notify WARN "[osgEarth::WMS] Unable to read WMS GetCapabilities; failing."].
Proof.
  destruct (C5_capabilities_failure_is_fatal (demo_ext None None) (Some 0%nat) EmptyString
              (demo_world None "http://y/wms" "basic" EmptyString) eq_refl)
    as (w' & Hrun & Hproto & _ & _ & _ & _ & Hstore & Htrace).
  exists w'. repeat split; assumption.
Defined.

Lemma C6_witness :
  exists s1 : @WMSSource string,
    _prototype s1 =
      "http://x/wms?SERVICE=WMS&VERSION=1.1.1&REQUEST=GetMap&LAYERS=basic&FORMAT=image/png&STYLES=&SRS=EPSG:4326&WIDTH=256&HEIGHT=256&BBOX=%lf,%lf,%lf,%lf".
Proof.
  destruct (C6_default_format_parameter (demo_ext None None)
              (demo_options "http://x/wms" "basic" EmptyString) demo_store [] None EmptyString
              demo_capabilities eq_refl eq_refl eq_refl)
    as [(s1 & Hproto & _) _].
  exists s1. exact Hproto.
Defined.



Lemma C8_witness :
  exists w',
    createHeightField (demo_ext None None) demo_key (demo_resolved "basic" "m")
      = Done [] w' /\
    trace w' =
      (trace (demo_resolved "basic" "m") ++
       [FetchImage
          "http://x/wms?SERVICE=WMS&VERSION=1.1.1&REQUEST=GetMap&LAYERS=basic&FORMAT=image/png&STYLES=&SRS=EPSG:4326&WIDTH=256&HEIGHT=256&BBOX=-180.000000,-90.000000,0.000000,90.000000&.png";
        Notify INFO
          "[osgEarth::WMS] Failed to read heightfield from http://x/wms?SERVICE=WMS&VERSION=1.1.1&REQUEST=GetMap&LAYERS=basic&FORMAT=image/png&STYLES=&SRS=EPSG:4326&WIDTH=256&HEIGHT=256&BBOX=-180.000000,-90.000000,0.000000,90.000000&.png"])%list.
Proof.
  eexists. split.
  - apply (C8_fetch_failure_is_degraded (demo_ext None None) demo_key
             (demo_resolved "basic" "m")
             "http://x/wms?SERVICE=WMS&VERSION=1.1.1&REQUEST=GetMap&LAYERS=basic&FORMAT=image/png&STYLES=&SRS=EPSG:4326&WIDTH=256&HEIGHT=256&BBOX=-180.000000,-90.000000,0.000000,90.000000&.png");
      vm_compute; reflexivity.
  - reflexivity.
Defined.

(** C9, as stated, fails: the unit configured as ["feet"] is stored as
    ["feet"], which is neither ["m"] nor ["ft"]. *)
Lemma C9_counterexample :
  let unit :=
    _elevation_unit
      (WMSSource_new (demo_ext None None) (demo_options "http://x/wms" "basic" "feet")) in
  unit = "feet" /\ ~ (unit = "m" \/ unit = "ft").
Proof.
  split; [vm_compute; reflexivity|].
  vm_compute. intros [H|H]; discriminate H.
Qed.

Lemma C10_witness :
  _elevation_unit
    (WMSSource_new (demo_ext None None) (demo_options "http://x/wms" "basic" "FT")) = "FT" /\
  scaleFactor "FT" = 1%Q /\
  exists w',
    createHeightField (demo_ext None (Some [100%Q; 250%Q])) demo_key
      (demo_resolved "basic" "FT") = Done [(100 * 1)%Q; (250 * 1)%Q] w'.
Proof.
  assert (Hrun0 :
    createProfile (demo_ext None (Some [100%Q; 250%Q])) (Some 0%nat) EmptyString
      (mkWorld
         (WMSSource_new (demo_ext None (Some [100%Q; 250%Q]))
            (demo_options "http://x/wms" "basic" "FT"))
         demo_store [])
    = Done (Some 0%nat) (demo_resolved "basic" "FT"))
    by (vm_compute; reflexivity).
  assert (Huri :
    sprintf 2048 (_prototype (this (demo_resolved "basic" "FT"))) (keyBounds demo_key)
    = Rendered
        "http://x/wms?SERVICE=WMS&VERSION=1.1.1&REQUEST=GetMap&LAYERS=basic&FORMAT=image/png&STYLES=&SRS=EPSG:4326&WIDTH=256&HEIGHT=256&BBOX=-180.000000,-90.000000,0.000000,90.000000&.png")
    by (vm_compute; reflexivity).
  assert (Hopt :
    getPluginData (demo_options "http://x/wms" "basic" "FT") "elevation_unit" = Some "FT")
    by (vm_compute; reflexivity).
  destruct (C10_unit_test_is_exact (demo_ext None (Some [100%Q; 250%Q]))
              (demo_options "http://x/wms" "basic" "FT") "FT" demo_store []
              (Some 0%nat) EmptyString (Some 0%nat) (demo_resolved "basic" "FT") demo_key _
              Hopt ltac:(discriminate) ltac:(discriminate) Hrun0 Huri)
    as (Hstored & _ & Hscale & _ & w' & Hrun).
  split; [exact Hstored|]. split; [exact Hscale|]. exists w'. exact Hrun.
Defined.

(** * Further properties *)

Section Further.

Context {SpatialReference Image HeightField : Type}.
Variable ext : @Collaborators SpatialReference Image HeightField.

#[local] Arguments String.append : simpl never.

(** Lines 193-216 always run to their end. *)
Lemma finishProfile_run (r0 : option ProfilePtr) (w : World) :
  finishProfile ext (separator (_prefix (this w))) r0 w =
    Done (probedResult ext (this w) (store w) r0)
      (mkWorld
         (let s2 := probedMembers ext (this w) in
          set_prototype (_prototype s2 +:+ "&." +:+ _format s2) s2)
         (probedStore ext (this w) (store w))
         (trace w ++ probeTrace (this w) ++ [probeVerdict ext (this w)])%list).
Proof.
  unfold finishProfile, probedResult, probedMembers, probedStore, probeVerdict,
    matchingPatterns.
  destruct (TileServiceReader_read ext (usedTileServiceURL (this w))) as [ts|] eqn:Ets.
  - destruct (getMatchingPatterns ts (_layers (this w)) (_format (this w))
                (_style (this w)) (_srs (this w)) (_tile_size (this w))
                (_tile_size (this w))) as [|p0 ps] eqn:Ep.
    + rewrite (bind_Done _ _ _ _ _
                 (probeTileService_no_match ext _ r0 w ts eq_refl Ets Ep)).
      rewrite (bind_Done _ _ _ _ _ (appendFormatSuffix_run _)). reflexivity.
    + rewrite (bind_Done _ _ _ _ _
                 (probeTileService_match ext _ r0 w ts p0 ps eq_refl Ets Ep)).
      rewrite (bind_Done _ _ _ _ _ (appendFormatSuffix_run _)). reflexivity.
  - rewrite (bind_Done _ _ _ _ _ (probeTileService_absent ext _ r0 w eq_refl Ets)).
    rewrite (bind_Done _ _ _ _ _ (appendFormatSuffix_run _)). reflexivity.
Qed.

(** A completed [createProfile] after a successful capabilities fetch, in
    closed form. *)
Lemma createProfile_completed
    (mapProfile : option ProfilePtr) (configPath : string) (caps : Capabilities)
    (w w' : World) (r : option ProfilePtr) :
  CapabilitiesReader_read ext (usedCapabilitiesURL (this w)) = Some caps ->
  createProfile ext mapProfile configPath w = Done r w' ->
  exists r0 w1,
    selectProfile ext caps mapProfile (preparedWorld w caps) = Done r0 w1 /\
    r = probedResult ext (prepared (this w) caps) (store w1) r0 /\
    this w' = resolvedMembers ext (this w) caps /\
    store w' = probedStore ext (prepared (this w) caps) (store w1) /\
    trace w' =
      (trace w ++ preparationTrace (this w) caps
       ++ probeTrace (prepared (this w) caps)
       ++ [probeVerdict ext (prepared (this w) caps)])%list.
Proof.
  intros Hc Hrun. rewrite (createProfile_resolved ext _ _ caps w Hc) in Hrun.
  fold (preparedWorld w caps) in Hrun.
  destruct (selectProfile ext caps mapProfile (preparedWorld w caps))
    as [r0 w1|why w1] eqn:Hsel;
    [rewrite (bind_Done _ _ _ _ _ Hsel) in Hrun
    |rewrite (bind_Aborted _ _ _ _ _ Hsel) in Hrun; discriminate].
  destruct (selectProfile_preserves ext caps mapProfile _ _ _ Hsel) as [Hthis Htr].
  cbn [this trace preparedWorld] in Hthis, Htr.
  assert (Hsep : separator (_prefix (this w)) = separator (_prefix (this w1))).
  { rewrite Hthis. reflexivity. }
  rewrite Hsep, finishProfile_run in Hrun. inversion Hrun; subst r w'. clear Hrun.
  exists r0, w1. split; [reflexivity|]. cbn [this store trace].
  rewrite Hthis, Htr. unfold resolvedMembers.
  rewrite <- !app_assoc. repeat split.
Qed.

Ltac run_monad_in H :=
  unfold mbind, M_bind, bind, ret, when, get_this, modify_this, notify, log,
    abort, deref, load, allocate in H; cbn in H.

(** Case analysis on the innermost scrutinee of a run. *)
Ltac split_run H :=
  repeat (match type of H with
          | context [match ?x with _ => _ end] =>
              lazymatch x with
              | context [match _ with _ => _ end] => fail
              | _ => destruct x eqn:?
              end
          end; cbn in H; try discriminate H).

(** What a completed selection can have done: it returns null, the
    caller's pointer or the registry's pointer and leaves the store alone,
    or it returns the next free address and stores there the profile built
    from the requested layer. *)
Lemma selectProfile_outcome (caps : Capabilities) (mapProfile : option ProfilePtr)
    (w w1 : World) (r : option ProfilePtr) :
  selectProfile ext caps mapProfile w = Done r w1 ->
  (store w1 = store w /\
   (r = None \/
    exists p, r = Some p /\ is_Some (store w !! p) /\
              (r = mapProfile \/ r = getGlobalGeodeticProfile ext)))
  \/
  (exists layer,
     getLayerByName caps (_layers (this w)) = Some layer /\
     r = Some (length (store w)) /\
     store w1 =
       (store w ++
        [Profile_create ext (_srs (this w)) (layer_minx layer) (layer_miny layer)
           (layer_maxx layer) (layer_maxy layer)])%list).
Proof.
  unfold selectProfile, sameSRS, fromLayerExtents, lastResort. intros H.
  run_monad_in H. split_run H.
  all: inversion H; subst; clear H; cbn.
  all: try (left; split; [reflexivity|]; solve [left; reflexivity | right; eauto 8]).
  all: try (right; eexists; split; [reflexivity|]; split; reflexivity).
Qed.

Lemma fetchEvents_app (a b : list Event) :
  fetchEvents (a ++ b) = (fetchEvents a ++ fetchEvents b)%list.
Proof. unfold fetchEvents. apply List.filter_app. Qed.

(** X1.  A run of [createProfile] that reads the capabilities document and
    completes performs exactly two fetches, in this order: the capabilities
    document, then the tile-service document.  It fetches no image and
    fetches nothing twice. *)
Theorem createProfile_fetches_capabilities_then_tile_service
    (mapProfile : option ProfilePtr) (configPath : string) (caps : Capabilities)
    (w w' : World) (r : option ProfilePtr) :
  CapabilitiesReader_read ext (usedCapabilitiesURL (this w)) = Some caps ->
  createProfile ext mapProfile configPath w = Done r w' ->
  fetchEvents (trace w') =
    (fetchEvents (trace w) ++
     [FetchCapabilities (usedCapabilitiesURL (this w));
      FetchTileService (usedTileServiceURL (this w))])%list.
Proof.
  intros Hc Hrun.
  destruct (createProfile_completed _ _ caps w w' r Hc Hrun)
    as (r0 & w1 & _ & _ & _ & _ & Htr).
  rewrite Htr, !fetchEvents_app. f_equal.
  unfold preparationTrace, probeTrace, probeVerdict.
  destruct (empty_string (_format (this w)));
    destruct (TileServiceReader_read ext (usedTileServiceURL (prepared (this w) caps)));
    reflexivity.
Qed.

Lemma append_not_empty (a b : string) (c : ascii) :
  empty_string (a +:+ String c b) = false.
Proof. destruct a; reflexivity. Qed.

Lemma usedCapabilitiesURL_not_empty (s : @WMSSource SpatialReference) :
  empty_string (usedCapabilitiesURL s) = false.
Proof.
  unfold usedCapabilitiesURL.
  destruct (empty_string (_capabilitiesURL s)) eqn:E; [apply append_not_empty|exact E].
Qed.

Lemma usedTileServiceURL_not_empty (s : @WMSSource SpatialReference) :
  empty_string (usedTileServiceURL s) = false.
Proof.
  unfold usedTileServiceURL.
  destruct (empty_string (_tileServiceURL s)) eqn:E; [apply append_not_empty|exact E].
Qed.

Lemma resolvedFormat_not_empty (s : @WMSSource SpatialReference) (caps : Capabilities) :
  empty_string (resolvedFormat s caps) = false.
Proof.
  unfold resolvedFormat.
  destruct (empty_string (_format s)) eqn:E; [|exact E].
  destruct (empty_string (suggestExtension caps)) eqn:E1; [reflexivity|exact E1].
Qed.

Lemma resolvedSRS_not_empty (s : @WMSSource SpatialReference) :
  empty_string (resolvedSRS s) = false.
Proof.
  unfold resolvedSRS. destruct (empty_string (_srs s)) eqn:E; [reflexivity|exact E].
Qed.

Lemma separator_in_derived_url (prefix rest : string) :
  contains_char "?" (prefix +:+ String (separator prefix) rest) = true.
Proof.
  rewrite contains_char_append. unfold separator.
  destruct (contains_char "?" prefix); reflexivity.
Qed.

Lemma resolvedMembers_fields (s : @WMSSource SpatialReference) (caps : Capabilities) :
  let s' := resolvedMembers ext s caps in
  _prefix s' = _prefix s /\ _layers s' = _layers s /\ _style s' = _style s /\
  _wms_format s' = _wms_format s /\ _tile_size s' = _tile_size s /\
  _elevation_unit s' = _elevation_unit s /\ _profile s' = _profile s /\
  _format s' = resolvedFormat s caps /\ _srs s' = resolvedSRS s /\
  _capabilitiesURL s' = usedCapabilitiesURL s /\
  _tileServiceURL s' = usedTileServiceURL s /\
  _tileService s' = TileServiceReader_read ext (usedTileServiceURL s).
Proof.
  unfold resolvedMembers, probedMembers.
  destruct (matchingPatterns ext (prepared s caps)); cbn; repeat split.
Qed.

(** X2.  After a completed run that read the capabilities document, both
    URL members are set: a configured URL is kept as it is; a missing one
    is derived as the prefix, the separator and the fixed query, and then
    holds a question mark whatever the prefix is.  (A run that fails to
    read the capabilities returns at line 114, before the tile-service URL
    is derived.) *)
Theorem createProfile_settles_the_service_urls
    (mapProfile : option ProfilePtr) (configPath : string) (caps : Capabilities)
    (w w' : World) (r : option ProfilePtr) :
  CapabilitiesReader_read ext (usedCapabilitiesURL (this w)) = Some caps ->
  createProfile ext mapProfile configPath w = Done r w' ->
  let s := this w in
  let s' := this w' in
  _capabilitiesURL s' <> EmptyString /\
  _tileServiceURL s' <> EmptyString /\
  (_capabilitiesURL s <> EmptyString -> _capabilitiesURL s' = _capabilitiesURL s) /\
  (_tileServiceURL s <> EmptyString -> _tileServiceURL s' = _tileServiceURL s) /\
  (_capabilitiesURL s = EmptyString ->
   _capabilitiesURL s' =
     _prefix s +:+ String (separator (_prefix s))
       "SERVICE=WMS&VERSION=1.1.1&REQUEST=GetCapabilities" /\
   contains_char "?" (_capabilitiesURL s') = true) /\
  (_tileServiceURL s = EmptyString ->
   _tileServiceURL s' =
     _prefix s +:+ String (separator (_prefix s)) "request=GetTileService" /\
   contains_char "?" (_tileServiceURL s') = true).
Proof.
  intros Hc Hrun s s'.
  destruct (createProfile_completed _ _ caps w w' r Hc Hrun)
    as (r0 & w1 & _ & _ & Hthis & _ & _).
  destruct (resolvedMembers_fields s caps)
    as (_ & _ & _ & _ & _ & _ & _ & _ & _ & Hcu & Htu & _).
  unfold s' in *. rewrite Hthis. fold s. rewrite Hcu, Htu.
  pose proof (usedCapabilitiesURL_not_empty s) as Nc.
  pose proof (usedTileServiceURL_not_empty s) as Nt.
  unfold usedCapabilitiesURL, usedTileServiceURL in *.
  split; [intros E; rewrite E in Nc; discriminate|].
  split; [intros E; rewrite E in Nt; discriminate|].
  split; [intros E; destruct (_capabilitiesURL s); [contradiction|reflexivity]|].
  split; [intros E; destruct (_tileServiceURL s); [contradiction|reflexivity]|].
  split; intros E; rewrite E; (split; [reflexivity|apply separator_in_derived_url]).
Qed.

(** X3.  After a completed run that read the capabilities document, the
    format (what [getExtension] reports) and the reference are never empty,
    and the prototype ends in [&.] followed by that format. *)
Theorem createProfile_leaves_format_and_reference_set
    (mapProfile : option ProfilePtr) (configPath : string) (caps : Capabilities)
    (w w' : World) (r : option ProfilePtr) :
  CapabilitiesReader_read ext (usedCapabilitiesURL (this w)) = Some caps ->
  createProfile ext mapProfile configPath w = Done r w' ->
  getExtension (this w') = resolvedFormat (this w) caps /\
  getExtension (this w') <> EmptyString /\
  _srs (this w') = resolvedSRS (this w) /\
  _srs (this w') <> EmptyString /\
  exists body, _prototype (this w') = body +:+ "&." +:+ getExtension (this w').
Proof.
  intros Hc Hrun.
  destruct (createProfile_completed _ _ caps w w' r Hc Hrun)
    as (r0 & w1 & _ & _ & Hthis & _ & _).
  destruct (resolvedMembers_fields (this w) caps)
    as (_ & _ & _ & _ & _ & _ & _ & Hf & Hs & _).
  unfold getExtension. rewrite Hthis, Hf, Hs.
  pose proof (resolvedFormat_not_empty (this w) caps) as Nf.
  pose proof (resolvedSRS_not_empty (this w)) as Ns.
  split; [reflexivity|]. split; [intros E; rewrite E in Nf; discriminate|].
  split; [reflexivity|]. split; [intros E; rewrite E in Ns; discriminate|].
  unfold resolvedMembers.
  exists (_prototype (probedMembers ext (prepared (this w) caps))).
  cbn [_prototype set_prototype]. f_equal. f_equal.
  unfold probedMembers. destruct (matchingPatterns ext (prepared (this w) caps)); reflexivity.
Qed.

(** X4.  [createProfile] never changes what the constructor read from the
    options: prefix, layers, style, WMS format, tile size (what
    [getPixelsPerTile] reports), elevation unit.  This holds for every
    completed run, with or without a capabilities document. *)
Theorem createProfile_keeps_the_configuration
    (mapProfile : option ProfilePtr) (configPath : string)
    (w w' : World) (r : option ProfilePtr) :
  createProfile ext mapProfile configPath w = Done r w' ->
  _prefix (this w') = _prefix (this w) /\
  _layers (this w') = _layers (this w) /\
  _style (this w') = _style (this w) /\
  _wms_format (this w') = _wms_format (this w) /\
  getPixelsPerTile (this w') = getPixelsPerTile (this w) /\
  _elevation_unit (this w') = _elevation_unit (this w).
Proof.
  intros Hrun.
  destruct (CapabilitiesReader_read ext (usedCapabilitiesURL (this w))) as [caps|] eqn:Hc.
  - destruct (createProfile_completed _ _ caps w w' r Hc Hrun)
      as (r0 & w1 & _ & _ & Hthis & _ & _).
    destruct (resolvedMembers_fields (this w) caps)
      as (H1 & H2 & H3 & H4 & H5 & H6 & _).
    unfold getPixelsPerTile. rewrite Hthis. repeat split; assumption.
  - rewrite (createProfile_unreadable ext _ _ w Hc) in Hrun.
    inversion Hrun; subst. repeat split.
Qed.

Lemma usedCapabilitiesURL_stable (s s' : @WMSSource SpatialReference) :
  _capabilitiesURL s' = usedCapabilitiesURL s ->
  usedCapabilitiesURL s' = usedCapabilitiesURL s.
Proof.
  intros E. pose proof (usedCapabilitiesURL_not_empty s) as N.
  unfold usedCapabilitiesURL at 1. rewrite E, N. reflexivity.
Qed.

Lemma usedTileServiceURL_stable (s s' : @WMSSource SpatialReference) :
  _tileServiceURL s' = usedTileServiceURL s ->
  usedTileServiceURL s' = usedTileServiceURL s.
Proof.
  intros E. pose proof (usedTileServiceURL_not_empty s) as N.
  unfold usedTileServiceURL at 1. rewrite E, N. reflexivity.
Qed.

Lemma resolvedFormat_stable (s s' : @WMSSource SpatialReference) (caps : Capabilities) :
  _format s' = resolvedFormat s caps ->
  resolvedFormat s' caps = resolvedFormat s caps.
Proof.
  intros E. pose proof (resolvedFormat_not_empty s caps) as N.
  unfold resolvedFormat at 1. rewrite E, N. reflexivity.
Qed.

Lemma resolvedSRS_stable (s s' : @WMSSource SpatialReference) :
  _srs s' = resolvedSRS s -> resolvedSRS s' = resolvedSRS s.
Proof.
  intros E. pose proof (resolvedSRS_not_empty s) as N.
  unfold resolvedSRS at 1. rewrite E, N. reflexivity.
Qed.

(** The prototype line 216 leaves, from the members at entry. *)
Lemma resolvedMembers_prototype (s : @WMSSource SpatialReference) (caps : Capabilities) :
  _prototype (resolvedMembers ext s caps) =
    match
      match TileServiceReader_read ext (usedTileServiceURL s) with
      | Some ts =>
          getMatchingPatterns ts (_layers s) (resolvedFormat s caps) (_style s)
            (resolvedSRS s) (_tile_size s) (_tile_size s)
      | None => []
      end
    with
    | p0 :: _ => _prefix s +:+ String (separator (_prefix s)) (getPrototype p0)
    | [] =>
        _prefix s +:+ String (separator (_prefix s))
          ("SERVICE=WMS&VERSION=1.1.1&REQUEST=GetMap"
           +:+ "&LAYERS=" +:+ _layers s
           +:+ "&FORMAT="
           +:+ (if empty_string (_wms_format s)
                then "image/" +:+ resolvedFormat s caps else _wms_format s)
           +:+ "&STYLES=" +:+ _style s
           +:+ "&SRS=" +:+ resolvedSRS s
           +:+ "&WIDTH=" +:+ string_of_int (_tile_size s)
           +:+ "&HEIGHT=" +:+ string_of_int (_tile_size s)
           +:+ "&BBOX=%lf,%lf,%lf,%lf")
    end +:+ "&." +:+ resolvedFormat s caps.
Proof.
  unfold resolvedMembers, probedMembers, matchingPatterns.
  change (usedTileServiceURL (prepared s caps)) with (usedTileServiceURL s).
  cbn [prepared defaulted set_prototype].
  destruct (TileServiceReader_read ext (usedTileServiceURL s)) as [ts|]; cbn.
  - destruct (getMatchingPatterns ts (_layers s) (resolvedFormat s caps) (_style s)
                (resolvedSRS s) (_tile_size s) (_tile_size s)); reflexivity.
  - reflexivity.
Qed.

Lemma WMSSource_ext (a b : @WMSSource SpatialReference) :
  _prefix a = _prefix b -> _layers a = _layers b -> _style a = _style b ->
  _format a = _format b -> _wms_format a = _wms_format b -> _srs a = _srs b ->
  _tileServiceURL a = _tileServiceURL b -> _capabilitiesURL a = _capabilitiesURL b ->
  _tile_size a = _tile_size b -> _elevation_unit a = _elevation_unit b ->
  _tileService a = _tileService b -> _profile a = _profile b ->
  _prototype a = _prototype b ->
  a = b.
Proof. destruct a, b; cbn; intros; subst; reflexivity. Qed.

(** X6.  With a target reference that [SpatialReference::create] rejects,
    every run that reads the capabilities document dereferences the null
    [wms_srs] (line 164 or 185): it stops after the request prototype has
    been built, before the tile service is fetched, and returns nothing. *)
Theorem createProfile_rejected_reference_is_dereferenced
    (mapProfile : option ProfilePtr) (configPath : string) (caps : Capabilities)
    (w : World) :
  CapabilitiesReader_read ext (usedCapabilitiesURL (this w)) = Some caps ->
  SpatialReference_create ext (resolvedSRS (this w)) = None ->
  createProfile ext mapProfile configPath w =
    Aborted NullDereference (preparedWorld w caps) /\
  fetchEvents (trace (preparedWorld w caps)) =
    (fetchEvents (trace w) ++ [FetchCapabilities (usedCapabilitiesURL (this w))])%list.
Proof.
  intros Hc Hs. split.
  - rewrite (createProfile_resolved ext _ _ caps w Hc).
    fold (preparedWorld w caps).
    apply bind_Aborted.
    apply (selectProfile_invalid_reference ext caps mapProfile (preparedWorld w caps)).
    exact Hs.
  - unfold preparedWorld, preparationTrace. cbn [trace].
    rewrite !fetchEvents_app.
    destruct (empty_string (_format (this w))); reflexivity.
Qed.

(** The caller's profile exists and is not of type [TYPE_LOCAL]. *)
Lemma selectProfile_unknown_layer (caps : Capabilities) (srs : SpatialReference)
    (mapProfile : option ProfilePtr) (w : World) :
  SpatialReference_create ext (_srs (this w)) = Some srs ->
  callerNotEquivalent ext (store w) srs mapProfile ->
  getLayerByName caps (_layers (this w)) = None ->
  selectProfile ext caps mapProfile w =
    Done (if isGeographic ext srs && callerIsGlobal (store w) mapProfile
          then mapProfile else None) w.
Proof.
  intros Hs Hn Hl. unfold selectProfile.
  unfold mbind, M_bind, bind, get_this. rewrite Hs.
  rewrite (sameSRS_not_applicable ext srs mapProfile w Hn).
  unfold fromLayerExtents, lastResort, callerIsGlobal, callerNotEquivalent in *.
  unfold mbind, M_bind, bind, ret, get_this, deref, load. cbn. rewrite Hl. cbn.
  destruct (isGeographic ext srs); cbn; [|reflexivity].
  destruct mapProfile as [p|]; [|reflexivity].
  destruct Hn as (mp & Hp & _). rewrite Hp.
  destruct (negb _); reflexivity.
Qed.

(** X7.  The last resort.  In a run that reads the capabilities document
    and in which no tile-service pattern matches (so that lines 204-208 do
    not replace the result): when the caller's profile is not equivalent to
    the target reference and the capabilities document does not know the
    requested layer, a geographic target reference makes [createProfile]
    return the caller's own profile, provided it is not of type
    [TYPE_LOCAL]; nothing is created. *)
Theorem createProfile_last_resort_returns_caller_profile
    (p : ProfilePtr) (mp : Profile) (srs : SpatialReference)
    (caps : Capabilities) (configPath : string) (w : World) :
  CapabilitiesReader_read ext (usedCapabilitiesURL (this w)) = Some caps ->
  SpatialReference_create ext (resolvedSRS (this w)) = Some srs ->
  store w !! p = Some mp ->
  isEquivalentTo ext (getSRS mp) srs = false ->
  getLayerByName caps (_layers (this w)) = None ->
  isGeographic ext srs = true ->
  getProfileType mp <> TYPE_LOCAL ->
  matchingPatterns ext (prepared (this w) caps) = [] ->
  exists w',
    createProfile ext (Some p) configPath w = Done (Some p) w' /\
    store w' = store w.
Proof.
  intros Hc Hs Hp He Hl Hgeo Hty Hm.
  rewrite (createProfile_resolved ext _ _ caps w Hc).
  fold (preparedWorld w caps).
  assert (Hn : callerNotEquivalent ext (store (preparedWorld w caps)) srs (Some p))
    by (exists mp; split; assumption).
  rewrite (bind_Done _ _ _ _ _
             (selectProfile_unknown_layer caps srs (Some p) (preparedWorld w caps)
                Hs Hn Hl)).
  rewrite Hgeo. unfold callerIsGlobal. cbn [store preparedWorld]. rewrite Hp.
  assert (Hglobal : negb (ProfileType_eqb (getProfileType mp) TYPE_LOCAL) = true)
    by (destruct (getProfileType mp); try reflexivity; contradiction).
  rewrite Hglobal. cbn [andb].
  destruct (finish_without_override ext (Some p) (preparedWorld w caps) Hm)
    as (w' & Hrun & Hst & _).
  exists w'. split; [exact Hrun | exact Hst].
Qed.

(** X8.  No profile can be derived.  In a run that reads the capabilities
    document and in which no tile-service pattern matches (so that lines
    204-208 do not replace the result): when the target reference is
    created, the caller's profile is absent or not equivalent to it, the
    capabilities document does not know the requested layer, and the last
    resort does not apply (the reference is not geographic, or there is no
    caller profile, or it is of type [TYPE_LOCAL]), [createProfile] returns
    [NULL].  Unlike after a failed capabilities fetch, the request
    prototype has been set all the same and the tile service has been
    fetched. *)
Theorem createProfile_without_usable_strategy_returns_null
    (mapProfile : option ProfilePtr) (srs : SpatialReference) (caps : Capabilities)
    (configPath : string) (w : World) :
  CapabilitiesReader_read ext (usedCapabilitiesURL (this w)) = Some caps ->
  SpatialReference_create ext (resolvedSRS (this w)) = Some srs ->
  callerNotEquivalent ext (store w) srs mapProfile ->
  getLayerByName caps (_layers (this w)) = None ->
  isGeographic ext srs && callerIsGlobal (store w) mapProfile = false ->
  matchingPatterns ext (prepared (this w) caps) = [] ->
  exists w',
    createProfile ext mapProfile configPath w = Done None w' /\
    store w' = store w /\
    _prototype (this w') =
      getMapRequest (defaulted (this w) caps) (separator (_prefix (this w)))
      +:+ "&." +:+ resolvedFormat (this w) caps /\
    In (FetchTileService (usedTileServiceURL (this w))) (trace w').
Proof.
  intros Hc Hs Hn Hl Hlast Hm.
  assert (Hsel : selectProfile ext caps mapProfile (preparedWorld w caps)
                 = Done None (preparedWorld w caps)).
  { rewrite (selectProfile_unknown_layer caps srs mapProfile (preparedWorld w caps)
               Hs Hn Hl).
    cbn [store preparedWorld]. rewrite Hlast. reflexivity. }
  pose proof (createProfile_resolved ext mapProfile configPath caps w Hc) as Hrun.
  fold (preparedWorld w caps) in Hrun.
  rewrite (bind_Done _ _ _ _ _ Hsel) in Hrun.
  change (separator (_prefix (this w)))
    with (separator (_prefix (this (preparedWorld w caps)))) in Hrun.
  rewrite finishProfile_run in Hrun.
  unfold probedResult, probedStore, probedMembers in Hrun.
  cbn [this store trace preparedWorld] in Hrun. rewrite Hm in Hrun.
  assert (Hr : match TileServiceReader_read ext (usedTileServiceURL (prepared (this w) caps))
               with Some _ => None | None => None end = @None ProfilePtr)
    by (destruct (TileServiceReader_read ext _); reflexivity).
  assert (Hst : match TileServiceReader_read ext (usedTileServiceURL (prepared (this w) caps))
                with Some _ => store w | None => store w end = store w)
    by (destruct (TileServiceReader_read ext _); reflexivity).
  rewrite Hr, Hst in Hrun.
  eexists. split; [exact Hrun|]. cbn [this store trace].
  split; [reflexivity|]. split; [reflexivity|].
  apply in_or_app. right. apply in_or_app. left.
  unfold probeTrace. right. left. reflexivity.
Qed.

Lemma selectProfile_projected (caps : Capabilities) (srs : SpatialReference)
    (mapProfile : option ProfilePtr) (layer : Layer) (w : World) :
  SpatialReference_create ext (_srs (this w)) = Some srs ->
  callerNotEquivalent ext (store w) srs mapProfile ->
  getLayerByName caps (_layers (this w)) = Some layer ->
  isGeographic ext srs = false ->
  selectProfile ext caps mapProfile w =
    Done (Some (length (store w)))
      (mkWorld (this w)
         (store w ++
          [Profile_create ext (_srs (this w)) (layer_minx layer) (layer_miny layer)
             (layer_maxx layer) (layer_maxy layer)])%list
         (trace w)).
Proof.
  intros Hs Hn Hl Hgeo. unfold selectProfile.
  unfold mbind, M_bind, bind, get_this. rewrite Hs.
  rewrite (sameSRS_not_applicable ext srs mapProfile w Hn).
  unfold fromLayerExtents, lastResort.
  unfold mbind, M_bind, bind, ret, get_this, deref, load, allocate. cbn.
  rewrite Hl. cbn. rewrite Hgeo. reflexivity.
Qed.

(** X9.  For a target reference that is not geographic, a layer the
    capabilities document knows always gets a new profile built from its
    bounds (caller profile not equivalent, no tile-service override).  The
    registry is not consulted: nothing is assumed of its global-geodetic
    profile, which may be null. *)
Theorem createProfile_projected_layer_gets_new_profile
    (mapProfile : option ProfilePtr) (srs : SpatialReference)
    (caps : Capabilities) (layer : Layer) (configPath : string) (w : World) :
  CapabilitiesReader_read ext (usedCapabilitiesURL (this w)) = Some caps ->
  SpatialReference_create ext (resolvedSRS (this w)) = Some srs ->
  callerNotEquivalent ext (store w) srs mapProfile ->
  getLayerByName caps (_layers (this w)) = Some layer ->
  isGeographic ext srs = false ->
  matchingPatterns ext (prepared (this w) caps) = [] ->
  exists w',
    createProfile ext mapProfile configPath w = Done (Some (length (store w))) w' /\
    store w' =
      (store w ++
       [Profile_create ext (resolvedSRS (this w)) (layer_minx layer)
          (layer_miny layer) (layer_maxx layer) (layer_maxy layer)])%list.
Proof.
  intros Hc Hs Hn Hl Hgeo Hm.
  rewrite (createProfile_resolved ext _ _ caps w Hc).
  fold (preparedWorld w caps).
  rewrite (bind_Done _ _ _ _ _
             (selectProfile_projected caps srs mapProfile layer (preparedWorld w caps)
                Hs Hn Hl Hgeo)).
  destruct (finish_without_override ext (Some (length (store (preparedWorld w caps))))
              (mkWorld (this (preparedWorld w caps))
                 (store (preparedWorld w caps) ++
                  [Profile_create ext (_srs (this (preparedWorld w caps)))
                     (layer_minx layer) (layer_miny layer) (layer_maxx layer)
                     (layer_maxy layer)])%list
                 (trace (preparedWorld w caps))) Hm)
    as (w' & Hrun & Hst & _).
  exists w'. split; [exact Hrun | exact Hst].
Qed.

Lemma double_eq_nan_l (x : double) : double_eq S754_nan x = false.
Proof. reflexivity. Qed.

Lemma bounds_test_nan (layer : Layer) (e : GeoExtent) :
  hasNaN layer = true ->
  double_eq (layer_minx layer) (xMin e) &&
  double_eq (layer_miny layer) (yMin e) &&
  double_eq (layer_maxx layer) (xMax e) &&
  double_eq (layer_maxy layer) (yMax e) = false.
Proof.
  unfold hasNaN, is_nan. destruct layer as [a b c d]; cbn.
  destruct a; try reflexivity; cbn [orb];
  destruct b; rewrite ?andb_false_r; try reflexivity; cbn [orb];
  destruct c; rewrite ?andb_false_r; try reflexivity; cbn [orb];
  destruct d; rewrite ?andb_false_r; try reflexivity; discriminate.
Qed.

(** X10.  The comparison of lines 167-170 is [==], so a layer extent with
    a NaN bound does not match the registry's extent, whatever that is.  In
    a run that reads the capabilities document, with the caller's profile
    absent or not equivalent to the target reference (so that line 149
    does not settle the result) and with no matching tile-service pattern
    (so that lines 204-208 do not replace it): for a geographic reference
    such a layer gets a new profile, not the global-geodetic singleton. *)
Theorem createProfile_nan_extent_never_matches_global_geodetic
    (mapProfile : option ProfilePtr) (srs : SpatialReference)
    (caps : Capabilities) (layer : Layer) (g : ProfilePtr) (gg : Profile)
    (configPath : string) (w : World) :
  CapabilitiesReader_read ext (usedCapabilitiesURL (this w)) = Some caps ->
  SpatialReference_create ext (resolvedSRS (this w)) = Some srs ->
  callerNotEquivalent ext (store w) srs mapProfile ->
  getLayerByName caps (_layers (this w)) = Some layer ->
  isGeographic ext srs = true ->
  getGlobalGeodeticProfile ext = Some g ->
  store w !! g = Some gg ->
  hasNaN layer = true ->
  matchingPatterns ext (prepared (this w) caps) = [] ->
  exists w',
    createProfile ext mapProfile configPath w = Done (Some (length (store w))) w' /\
    length (store w) <> g /\
    store w' =
      (store w ++
       [Profile_create ext (resolvedSRS (this w)) (layer_minx layer)
          (layer_miny layer) (layer_maxx layer) (layer_maxy layer)])%list.
Proof.
  intros Hc Hs Hn Hl Hgeo Hg Hgg Hnan Hm.
  rewrite (createProfile_resolved ext _ _ caps w Hc).
  fold (preparedWorld w caps).
  rewrite (bind_Done _ _ _ _ _
             (selectProfile_fresh ext caps srs mapProfile layer g gg
                (preparedWorld w caps) Hs Hn Hl Hgeo Hg Hgg
                (bounds_test_nan layer (getExtent gg) Hnan))).
  destruct (finish_without_override ext (Some (length (store (preparedWorld w caps))))
              (mkWorld (this (preparedWorld w caps))
                 (store (preparedWorld w caps) ++
                  [Profile_create ext (_srs (this (preparedWorld w caps)))
                     (layer_minx layer) (layer_miny layer) (layer_maxx layer)
                     (layer_maxy layer)])%list
                 (trace (preparedWorld w caps))) Hm)
    as (w' & Hrun & Hst & _).
  exists w'. split; [exact Hrun|]. split; [|exact Hst].
  apply lookup_lt_Some in Hgg. lia.
Qed.

(** X11.  The tile-service probe is harmless when it finds nothing.  When
    the tile-service document cannot be read, or is read and offers no
    matching pattern, a completed run returns exactly what profile
    selection produced, keeps the store selection left, keeps the standard
    GetMap request as the prototype, and remembers what the reader returned
    in [_tileService]. *)
Theorem createProfile_probe_without_patterns_changes_nothing
    (mapProfile : option ProfilePtr) (configPath : string) (caps : Capabilities)
    (w w' : World) (r : option ProfilePtr) :
  CapabilitiesReader_read ext (usedCapabilitiesURL (this w)) = Some caps ->
  createProfile ext mapProfile configPath w = Done r w' ->
  matchingPatterns ext (prepared (this w) caps) = [] ->
  exists w1,
    selectProfile ext caps mapProfile (preparedWorld w caps) = Done r w1 /\
    store w' = store w1 /\
    _tileService (this w') = TileServiceReader_read ext (usedTileServiceURL (this w)) /\
    _prototype (this w') =
      getMapRequest (defaulted (this w) caps) (separator (_prefix (this w)))
      +:+ "&." +:+ resolvedFormat (this w) caps.
Proof.
  intros Hc Hrun Hm.
  destruct (createProfile_completed _ _ caps w w' r Hc Hrun)
    as (r0 & w1 & Hsel & Hr & Hthis & Hst & _).
  unfold probedResult in Hr. unfold probedStore in Hst. rewrite Hm in Hr, Hst.
  assert (Er : r = r0) by (destruct (TileServiceReader_read ext _); exact Hr).
  assert (Es : store w' = store w1) by (destruct (TileServiceReader_read ext _); exact Hst).
  subst r0. exists w1. split; [exact Hsel|]. split; [exact Es|].
  rewrite Hthis. unfold resolvedMembers, probedMembers. rewrite Hm.
  split; reflexivity.
Qed.

(** X12.  Without a tile-service override, the pointer a completed
    [createProfile] returns is never dangling: whenever it is not null it
    addresses a profile of the final store.  The store itself only grows,
    by at most one profile. *)
Theorem createProfile_result_is_live
    (mapProfile : option ProfilePtr) (configPath : string) (caps : Capabilities)
    (w w' : World) (p : ProfilePtr) :
  CapabilitiesReader_read ext (usedCapabilitiesURL (this w)) = Some caps ->
  createProfile ext mapProfile configPath w = Done (Some p) w' ->
  matchingPatterns ext (prepared (this w) caps) = [] ->
  is_Some (store w' !! p) /\
  (store w' = store w \/ exists o, store w' = (store w ++ [o])%list).
Proof.
  intros Hc Hrun Hm.
  destruct (createProfile_completed _ _ caps w w' (Some p) Hc Hrun)
    as (r0 & w1 & Hsel & Hr & _ & Hst & _).
  unfold probedResult in Hr. unfold probedStore in Hst. rewrite Hm in Hr, Hst.
  assert (Er : Some p = r0) by (destruct (TileServiceReader_read ext _); exact Hr).
  assert (Es : store w' = store w1) by (destruct (TileServiceReader_read ext _); exact Hst).
  subst r0. rewrite Es.
  destruct (selectProfile_outcome caps mapProfile _ _ _ Hsel)
    as [[Hsame Hcase]|(layer & _ & Hp & Hnew)]; cbn [store preparedWorld] in *.
  - rewrite Hsame. split; [|left; reflexivity].
    destruct Hcase as [Hnone|(q & Hq & Hlive & _)]; [discriminate|].
    inversion Hq; subst q. exact Hlive.
  - rewrite Hnew. inversion Hp; subst p. split; [|right; eexists; reflexivity].
    apply lookup_lt_is_Some_2. rewrite length_app. cbn. lia.
Qed.

(** X13.  A configured [wms_format] is what the [FORMAT] parameter of the
    standard request carries, whatever [format] is; the format suffix and
    [getExtension] still follow [format]. *)
Theorem createProfile_wms_format_overrides_the_format_parameter
    (mapProfile : option ProfilePtr) (configPath : string) (caps : Capabilities)
    (w w' : World) (r : option ProfilePtr) :
  CapabilitiesReader_read ext (usedCapabilitiesURL (this w)) = Some caps ->
  createProfile ext mapProfile configPath w = Done r w' ->
  matchingPatterns ext (prepared (this w) caps) = [] ->
  _wms_format (this w) <> EmptyString ->
  let s := this w in
  _prototype (this w') =
    (_prefix s +:+ String (separator (_prefix s))
       ("SERVICE=WMS&VERSION=1.1.1&REQUEST=GetMap"
        +:+ "&LAYERS=" +:+ _layers s
        +:+ "&FORMAT=" +:+ _wms_format s
        +:+ "&STYLES=" +:+ _style s
        +:+ "&SRS=" +:+ resolvedSRS s
        +:+ "&WIDTH=" +:+ string_of_int (_tile_size s)
        +:+ "&HEIGHT=" +:+ string_of_int (_tile_size s)
        +:+ "&BBOX=%lf,%lf,%lf,%lf"))
    +:+ "&." +:+ resolvedFormat s caps /\
  getExtension (this w') = resolvedFormat s caps.
Proof.
  intros Hc Hrun Hm Hw s.
  destruct (createProfile_completed _ _ caps w w' r Hc Hrun)
    as (r0 & w1 & _ & _ & Hthis & _ & _).
  unfold getExtension. rewrite Hthis. split.
  - unfold resolvedMembers, probedMembers. rewrite Hm.
    cbn. unfold getMapRequest. cbn. subst s. destruct (_wms_format (this w)); [contradiction|reflexivity].
  - apply (resolvedMembers_fields s caps).
Qed.

(** X14.  When the image is fetched, [createHeightField] logs nothing: it
    performs the one fetch, at the rendered URI, hands the image and the
    unit's factor to the converter and returns the converter's field;
    members and store are untouched. *)
Theorem createHeightField_converts_the_fetched_image
    (key : TileKey) (w : World) (uri : string) (image : Image) :
  sprintf 2048 (_prototype (this w)) (keyBounds key) = Rendered uri ->
  readImageFile ext uri = Some image ->
  createHeightField ext key w =
    Done (convert ext (Some image) (scaleFactor (_elevation_unit (this w))))
      (mkWorld (this w) (store w) (trace w ++ [FetchImage uri])%list).
Proof.
  intros Huri Himg. rewrite (createHeightField_run ext key w uri Huri), Himg.
  reflexivity.
Qed.

End Further.

(** *** Resolving twice *)

Section Twice.

Context {SpatialReference Image HeightField : Type}.

(** The collaborators as they answer during the first run and during the
    second: [createProfile] reads the capabilities and the tile service
    again on every call (lines 110 and 197). *)
Variables ext1 ext2 : @Collaborators SpatialReference Image HeightField.

Lemma resolvedMembers_idempotent (s : @WMSSource SpatialReference) (caps : Capabilities) :
  TileServiceReader_read ext2 (usedTileServiceURL s) =
    TileServiceReader_read ext1 (usedTileServiceURL s) ->
  resolvedMembers ext2 (resolvedMembers ext1 s caps) caps = resolvedMembers ext1 s caps.
Proof.
  intros Hts.
  remember (resolvedMembers ext1 s caps) as s' eqn:Es.
  destruct (resolvedMembers_fields ext1 s caps)
    as (H1 & H2 & H3 & H4 & H5 & H6 & H7 & H8 & H9 & H10 & H11 & H12).
  rewrite <- Es in H1, H2, H3, H4, H5, H6, H7, H8, H9, H10, H11, H12.
  destruct (resolvedMembers_fields ext2 s' caps)
    as (G1 & G2 & G3 & G4 & G5 & G6 & G7 & G8 & G9 & G10 & G11 & G12).
  pose proof (usedCapabilitiesURL_stable s s' H10) as Sc.
  pose proof (usedTileServiceURL_stable s s' H11) as St.
  pose proof (resolvedFormat_stable s s' caps H8) as Sf.
  pose proof (resolvedSRS_stable s s' H9) as Ss.
  rewrite St, Hts in G12.
  apply WMSSource_ext; try congruence.
  transitivity (_prototype (resolvedMembers ext1 s caps)); [|rewrite Es; reflexivity].
  rewrite (resolvedMembers_prototype ext2 s' caps), (resolvedMembers_prototype ext1 s caps).
  rewrite St, Hts, Sf, Ss, H1, H2, H3, H4, H5. reflexivity.
Qed.

(** X5.  Resolving twice is the same as resolving once, as far as the
    members go, when the servers answer alike.  [createProfile] fetches the
    capabilities and the tile service anew on every call; if the second
    call's two fetches are answered as the first call's were, with the same
    documents or the same failures, the second completed call leaves every
    member as the first left it.  In particular the prototype is rebuilt,
    not extended by a second format suffix.  Everything else the
    collaborators do may differ between the calls, as may the caller's
    profile. *)
Theorem createProfile_twice_leaves_the_same_members
    (mapProfile1 mapProfile2 : option ProfilePtr) (configPath1 configPath2 : string)
    (w w1 w2 : World) (r1 r2 : option ProfilePtr) :
  CapabilitiesReader_read ext2 (usedCapabilitiesURL (this w)) =
    CapabilitiesReader_read ext1 (usedCapabilitiesURL (this w)) ->
  TileServiceReader_read ext2 (usedTileServiceURL (this w)) =
    TileServiceReader_read ext1 (usedTileServiceURL (this w)) ->
  createProfile ext1 mapProfile1 configPath1 w = Done r1 w1 ->
  createProfile ext2 mapProfile2 configPath2 w1 = Done r2 w2 ->
  this w2 = this w1.
Proof.
  intros Hcaps Hts Hrun1 Hrun2.
  destruct (CapabilitiesReader_read ext1 (usedCapabilitiesURL (this w))) as [caps|] eqn:Hc.
  - destruct (createProfile_completed ext1 _ _ caps w w1 r1 Hc Hrun1)
      as (r0 & w0 & _ & _ & Hthis1 & _ & _).
    assert (Hu : usedCapabilitiesURL (this w1) = usedCapabilitiesURL (this w)).
    { apply usedCapabilitiesURL_stable. rewrite Hthis1.
      apply (resolvedMembers_fields ext1 (this w) caps). }
    assert (Hc1 : CapabilitiesReader_read ext2 (usedCapabilitiesURL (this w1)) = Some caps)
      by (rewrite Hu; exact Hcaps).
    destruct (createProfile_completed ext2 _ _ caps w1 w2 r2 Hc1 Hrun2)
      as (r0' & w0' & _ & _ & Hthis2 & _ & _).
    rewrite Hthis2, Hthis1. apply resolvedMembers_idempotent. exact Hts.
  - rewrite (createProfile_unreadable ext1 _ _ w Hc) in Hrun1.
    inversion Hrun1; subst r1 w1; clear Hrun1.
    cbn [this] in Hrun2 |- *.
    set (s1 := set_capabilitiesURL (usedCapabilitiesURL (this w)) (this w)) in *.
    assert (Hu : usedCapabilitiesURL s1 = usedCapabilitiesURL (this w)).
    { apply usedCapabilitiesURL_stable. reflexivity. }
    match type of Hrun2 with
    | createProfile _ _ _ ?w1 = _ =>
        assert (Hc1 : CapabilitiesReader_read ext2 (usedCapabilitiesURL (this w1)) = None)
          by (cbn [this]; rewrite Hu; exact Hcaps);
        rewrite (createProfile_unreadable ext2 _ _ w1 Hc1) in Hrun2
    end.
    inversion Hrun2; subst r2 w2; clear Hrun2.
    cbn [this]. rewrite Hu. reflexivity.
Qed.

End Twice.

(** *** Rendering, for any prototype with four placeholders *)

Lemma vformat_four (suffix : string) (a b c d : double) :
  contains_char "%" suffix = false ->
  vformat ("%lf,%lf,%lf,%lf" +:+ suffix) [a; b; c; d] =
    Rendered (format_lf a +:+ "," +:+ format_lf b +:+ ","
              +:+ format_lf c +:+ "," +:+ format_lf d +:+ suffix).
Proof.
  intros H.
  pose proof (vformat_plain suffix EmptyString [] H) as Hs.
  rewrite append_nil_r in Hs. cbn [vformat emit] in Hs.
  rewrite append_nil_r in Hs.
  rewrite !append_cons. change (EmptyString +:+ suffix) with suffix.
  cbn. rewrite Hs. reflexivity.
Qed.

(** X16.  Round trip of the bounds.  For a key whose four bounds are
    finite and for any prototype, standard or taken from a tile-service
    pattern, whose only conversions are four consecutive comma-separated
    [%lf], [createURI] returns the prototype with the key's [minx], [miny],
    [maxx], [maxy] in their place, in that order, each as [%lf] prints a
    finite number (fixed notation, six decimals), provided the result fits
    the buffer. *)
Theorem createURI_fills_the_four_placeholders {SpatialReference : Type}
    (key : TileKey) (w : @World SpatialReference) (front suffix : string) :
  let e := getGeoExtent key in
  let uri :=
    front +:+ format_lf (xMin e) +:+ "," +:+ format_lf (yMin e) +:+ ","
    +:+ format_lf (xMax e) +:+ "," +:+ format_lf (yMax e) +:+ suffix in
  finiteBounds key = true ->
  _prototype (this w) = front +:+ "%lf,%lf,%lf,%lf" +:+ suffix ->
  contains_char "%" front = false ->
  contains_char "%" suffix = false ->
  (String.length uri < 2048)%nat ->
  createURI key w = Done uri w.
Proof.
  intros e uri _ Hp Hf Hs Hlen. apply createURI_run.
  unfold sprintf, keyBounds. fold e. rewrite Hp.
  rewrite (vformat_plain front _ _ Hf), (vformat_four suffix _ _ _ _ Hs).
  cbn [emit]. fold uri.
  apply Nat.ltb_lt in Hlen. rewrite Hlen. reflexivity.
Qed.

Section FurtherRuns.

Context {SpatialReference Image HeightField : Type}.
Variable ext : @Collaborators SpatialReference Image HeightField.

(** X17.  Resolve, then render.  After a completed [createProfile] that
    read the capabilities document, without tile-service override, from
    members that hold no percent sign, [createURI] returns, for a key whose
    four bounds are finite, the standard GetMap request with the key's
    bounds in its [BBOX] parameter, in order, followed by the format
    suffix, provided the URI fits the buffer. *)
Theorem createURI_after_createProfile
    (mapProfile : option ProfilePtr) (configPath : string) (caps : Capabilities)
    (w w' : World) (r : option ProfilePtr) (key : TileKey) :
  let s := defaulted (this w) caps in
  let e := getGeoExtent key in
  let uri :=
    requestFront s (separator (_prefix s)) +:+ "&BBOX=" +:+ format_lf (xMin e) +:+ ","
    +:+ format_lf (yMin e) +:+ "," +:+ format_lf (xMax e) +:+ ","
    +:+ format_lf (yMax e) +:+ "&." +:+ _format s in
  finiteBounds key = true ->
  CapabilitiesReader_read ext (usedCapabilitiesURL (this w)) = Some caps ->
  createProfile ext mapProfile configPath w = Done r w' ->
  matchingPatterns ext (prepared (this w) caps) = [] ->
  contains_char "%" (_prefix (this w)) = false ->
  contains_char "%" (_layers (this w)) = false ->
  contains_char "%" (_style (this w)) = false ->
  contains_char "%" (_wms_format (this w)) = false ->
  contains_char "%" (resolvedFormat (this w) caps) = false ->
  contains_char "%" (resolvedSRS (this w)) = false ->
  (String.length uri < 2048)%nat ->
  createURI key w' = Done uri w'.
Proof.
  intros s e uri _ Hc Hrun Hm Hp Hl Hst Hw Hf Hs Hlen.
  destruct (createProfile_completed ext _ _ caps w w' r Hc Hrun)
    as (r0 & w1 & _ & _ & Hthis & _ & _).
  apply (createURI_standard_request key w' s); try assumption.
  rewrite Hthis. unfold resolvedMembers, probedMembers. rewrite Hm. reflexivity.
Qed.

(** X18.  The tile size.  A configured [tile_size] decides the tile size
    even when [default_tile_size] is configured too; [default_tile_size]
    counts only when [tile_size] is absent; with neither the size is 256.
    [createProfile] does not change it, so this is what [getPixelsPerTile]
    reports after any completed run. *)
Theorem tile_size_takes_precedence_over_default_tile_size
    (options : gmap string string) (st : Store) (tr : list Event)
    (mapProfile : option ProfilePtr) (configPath : string)
    (r : option ProfilePtr) (w' : World) :
  createProfile ext mapProfile configPath
    (mkWorld (WMSSource_new ext options) st tr) = Done r w' ->
  getPixelsPerTile (this w') =
    match getPluginData options "tile_size" with
    | Some v => as_int ext v 256
    | None =>
        match getPluginData options "default_tile_size" with
        | Some v => as_int ext v 256
        | None => 256
        end
    end.
Proof.
  intros Hrun. set (w := mkWorld (WMSSource_new ext options) st tr) in *.
  assert (Hkeep : _tile_size (this w') = _tile_size (this w)).
  { destruct (CapabilitiesReader_read ext (usedCapabilitiesURL (this w)))
      as [caps|] eqn:Hc.
    - destruct (createProfile_completed ext _ _ caps w w' r Hc Hrun)
        as (r0 & w1 & _ & _ & Hthis & _ & _).
      rewrite Hthis. apply (resolvedMembers_fields ext (this w) caps).
    - rewrite (createProfile_unreadable ext _ _ w Hc) in Hrun.
      inversion Hrun; subst. reflexivity. }
  unfold getPixelsPerTile. rewrite Hkeep. reflexivity.
Qed.

Variable getFileExtension : string -> string.
Variable equalCaseInsensitive : string -> string -> bool.

(** X19.  [readObject] declines a file whose extension is not accepted,
    without looking at the options.  For an accepted file it constructs the
    source from the options, and dereferences them even when they are null.
    The source it returns is not resolved yet: until [createProfile] has
    run its prototype is empty, and [createURI] returns the empty string
    for every tile key. *)
Theorem readObject_declines_or_constructs_unresolved_source
    (file_name : string) (opt : option (gmap string string)) :
  let accepted :=
    acceptsExtension equalCaseInsensitive (getFileExtension file_name) in
  (accepted = false ->
   readObject ext getFileExtension equalCaseInsensitive file_name opt
     = inr FILE_NOT_HANDLED) /\
  (accepted = true -> opt = None ->
   readObject ext getFileExtension equalCaseInsensitive file_name opt
     = inl NullDereference) /\
  (accepted = true ->
   forall options, opt = Some options ->
     readObject ext getFileExtension equalCaseInsensitive file_name opt
       = inr (ObjectRead (WMSSource_new ext options)) /\
     forall key st tr,
       createURI key (mkWorld (WMSSource_new ext options) st tr)
         = Done EmptyString (mkWorld (WMSSource_new ext options) st tr)).
Proof.
  intros accepted. unfold readObject. fold accepted.
  split; [intros ->; reflexivity|].
  split; [intros -> ->; reflexivity|].
  intros -> options ->. split; reflexivity.
Qed.

End FurtherRuns.

(** ** The further properties at concrete inputs *)

Lemma X1_witness :
  let w := demo_world None "http://x/wms" "basic" EmptyString in
  fetchEvents (trace (resolved_world (demo_ext None None) (Some 1%nat) w)) =
    [FetchCapabilities "http://x/wms?SERVICE=WMS&VERSION=1.1.1&REQUEST=GetCapabilities";
     FetchTileService "http://x/wms?request=GetTileService"].
Proof.
  apply (createProfile_fetches_capabilities_then_tile_service (demo_ext None None)
           (Some 1%nat) EmptyString demo_capabilities
           (demo_world None "http://x/wms" "basic" EmptyString)
           (resolved_world (demo_ext None None) (Some 1%nat)
              (demo_world None "http://x/wms" "basic" EmptyString))
           (Some 0%nat));
    vm_compute; reflexivity.
Defined.

Lemma X2_witness :
  let w := demo_world None "http://x/wms" "basic" EmptyString in
  let w' := resolved_world (demo_ext None None) (Some 1%nat) w in
  _capabilitiesURL (this w') =
    "http://x/wms?SERVICE=WMS&VERSION=1.1.1&REQUEST=GetCapabilities" /\
  _tileServiceURL (this w') = "http://x/wms?request=GetTileService" /\
  contains_char "?" (_tileServiceURL (this w')) = true.
Proof.
  intros w w'.
  assert (Hc : CapabilitiesReader_read (demo_ext None None) (usedCapabilitiesURL (this w))
               = Some demo_capabilities) by (vm_compute; reflexivity).
  assert (Hrun : createProfile (demo_ext None None) (Some 1%nat) EmptyString w
                 = Done (Some 0%nat) w') by (vm_compute; reflexivity).
  destruct (createProfile_settles_the_service_urls (demo_ext None None)
              (Some 1%nat) EmptyString demo_capabilities w w' (Some 0%nat) Hc Hrun)
    as (_ & _ & _ & _ & Hcu & Htu).
  destruct (Hcu ltac:(vm_compute; reflexivity)) as [E1 _].
  destruct (Htu ltac:(vm_compute; reflexivity)) as [E2 E3].
  split; [|split].
  - rewrite E1. vm_compute. reflexivity.
  - rewrite E2. vm_compute. reflexivity.
  - exact E3.
Defined.

Lemma X3_witness :
  let w := demo_world None "http://x/wms" "basic" EmptyString in
  let w' := resolved_world (demo_ext None None) (Some 1%nat) w in
  getExtension (this w') = resolvedFormat (this w) demo_capabilities /\
  getExtension (this w') <> EmptyString /\
  _srs (this w') = resolvedSRS (this w) /\
  _srs (this w') <> EmptyString /\
  exists body, _prototype (this w') = body +:+ "&." +:+ getExtension (this w').
Proof.
  intros w w'.
  apply (createProfile_leaves_format_and_reference_set (demo_ext None None)
           (Some 1%nat) EmptyString demo_capabilities w w' (Some 0%nat));
    vm_compute; reflexivity.
Defined.

Lemma X4_witness :
  let w := demo_world None "http://x/wms" "basic" "ft" in
  let w' := resolved_world (demo_ext None None) (Some 1%nat) w in
  _prefix (this w') = _prefix (this w) /\
  _layers (this w') = _layers (this w) /\
  _style (this w') = _style (this w) /\
  _wms_format (this w') = _wms_format (this w) /\
  getPixelsPerTile (this w') = getPixelsPerTile (this w) /\
  _elevation_unit (this w') = _elevation_unit (this w).
Proof.
  intros w w'.
  apply (createProfile_keeps_the_configuration (demo_ext None None)
           (Some 1%nat) EmptyString w w' (Some 0%nat));
    vm_compute; reflexivity.
Defined.

Lemma X5_witness :
  let ext1 := demo_ext None None in
  let ext2 := demo_ext None (Some [1%Q]) in
  let w := demo_world None "http://x/wms" "europe" EmptyString in
  let w1 := resolved_world ext1 (Some 1%nat) w in
  let w2 := resolved_world ext2 None w1 in
  this w2 = this w1.
Proof.
  intros ext1 ext2 w w1 w2.
  apply (createProfile_twice_leaves_the_same_members ext1 ext2
           (Some 1%nat) None EmptyString EmptyString w w1 w2 (Some 2%nat) (Some 3%nat));
    vm_compute; reflexivity.
Defined.

Lemma X6_witness :
  let w :=
    configured_world [("url", "http://x/wms"); ("layers", "basic"); ("srs", "EPSG:0")] in
  createProfile (demo_ext None None) (Some 0%nat) EmptyString w =
    Aborted NullDereference (preparedWorld w demo_capabilities) /\
  fetchEvents (trace (preparedWorld w demo_capabilities)) =
    (fetchEvents (trace w) ++ [FetchCapabilities (usedCapabilitiesURL (this w))])%list.
Proof.
  intros w.
  apply (createProfile_rejected_reference_is_dereferenced (demo_ext None None)
           (Some 0%nat) EmptyString demo_capabilities w);
    vm_compute; reflexivity.
Defined.

Lemma X7_witness :
  let w := demo_world None "http://x/wms" "unlisted" EmptyString in
  exists w',
    createProfile (demo_ext None None) (Some 1%nat) EmptyString w = Done (Some 1%nat) w' /\
    store w' = store w.
Proof.
  intros w.
  apply (createProfile_last_resort_returns_caller_profile (demo_ext None None)
           1%nat demo_mercator "EPSG:4326" demo_capabilities EmptyString w);
    try (vm_compute; reflexivity).
  vm_compute. discriminate.
Defined.

Lemma X8_witness :
  let w := demo_world None "http://x/wms" "unlisted" EmptyString in
  exists w',
    createProfile (demo_ext None None) None EmptyString w = Done None w' /\
    store w' = store w /\
    _prototype (this w') =
      getMapRequest (defaulted (this w) demo_capabilities) (separator (_prefix (this w)))
      +:+ "&." +:+ resolvedFormat (this w) demo_capabilities /\
    In (FetchTileService (usedTileServiceURL (this w))) (trace w').
Proof.
  intros w.
  apply (createProfile_without_usable_strategy_returns_null (demo_ext None None)
           None "EPSG:4326" demo_capabilities EmptyString w);
    vm_compute; reflexivity.
Defined.

Lemma X9_witness :
  let w :=
    configured_world
      [("url", "http://x/wms"); ("layers", "europe"); ("srs", "EPSG:900913")] in
  exists w',
    createProfile (demo_ext None None) (Some 0%nat) EmptyString w
      = Done (Some (length (store w))) w' /\
    store w' =
      (store w ++
       [Profile_create (demo_ext None None) (resolvedSRS (this w))
          (double_of_Z (-10)) (double_of_Z 35) (double_of_Z 30) (double_of_Z 70)])%list.
Proof.
  intros w.
  apply (createProfile_projected_layer_gets_new_profile (demo_ext None None)
           (Some 0%nat) "EPSG:900913" demo_capabilities
           (mkLayer (double_of_Z (-10)) (double_of_Z 35) (double_of_Z 30) (double_of_Z 70))
           EmptyString w);
    try (vm_compute; reflexivity).
  exists demo_global_geodetic. split; vm_compute; reflexivity.
Defined.

Lemma X10_witness :
  let w := demo_world None "http://x/wms" "broken" EmptyString in
  let layer :=
    mkLayer S754_nan (double_of_Z (-90)) (double_of_Z 180) (double_of_Z 90) in
  exists w',
    createProfile nan_ext None EmptyString w = Done (Some (length (store w))) w' /\
    length (store w) <> 0%nat /\
    store w' =
      (store w ++
       [Profile_create nan_ext (resolvedSRS (this w)) (layer_minx layer)
          (layer_miny layer) (layer_maxx layer) (layer_maxy layer)])%list.
Proof.
  intros w layer.
  apply (createProfile_nan_extent_never_matches_global_geodetic nan_ext
           None "EPSG:4326" demo_capabilities_nan layer 0%nat demo_global_geodetic
           EmptyString w);
    vm_compute; reflexivity.
Defined.

Lemma X11_witness :
  let w := demo_world None "http://x/wms" "europe" EmptyString in
  let w' := resolved_world (demo_ext None None) (Some 1%nat) w in
  exists w1,
    selectProfile (demo_ext None None) demo_capabilities (Some 1%nat)
      (preparedWorld w demo_capabilities) = Done (Some 2%nat) w1 /\
    store w' = store w1 /\
    _tileService (this w') =
      TileServiceReader_read (demo_ext None None) (usedTileServiceURL (this w)) /\
    _prototype (this w') =
      getMapRequest (defaulted (this w) demo_capabilities) (separator (_prefix (this w)))
      +:+ "&." +:+ resolvedFormat (this w) demo_capabilities.
Proof.
  intros w w'.
  apply (createProfile_probe_without_patterns_changes_nothing (demo_ext None None)
           (Some 1%nat) EmptyString demo_capabilities w w' (Some 2%nat));
    vm_compute; reflexivity.
Defined.

Lemma X12_witness :
  let w := demo_world None "http://x/wms" "europe" EmptyString in
  let w' := resolved_world (demo_ext None None) (Some 1%nat) w in
  is_Some (store w' !! 2%nat) /\
  (store w' = store w \/ exists o, store w' = (store w ++ [o])%list).
Proof.
  intros w w'.
  apply (createProfile_result_is_live (demo_ext None None)
           (Some 1%nat) EmptyString demo_capabilities w w' 2%nat);
    vm_compute; reflexivity.
Defined.

Lemma X13_witness :
  let w :=
    configured_world
      [("url", "http://x/wms"); ("layers", "basic"); ("format", "jpg");
       ("wms_format", "image/jpeg")] in
  let w' := resolved_world (demo_ext None None) (Some 0%nat) w in
  _prototype (this w') =
    "http://x/wms?SERVICE=WMS&VERSION=1.1.1&REQUEST=GetMap&LAYERS=basic&FORMAT=image/jpeg&STYLES=&SRS=EPSG:4326&WIDTH=256&HEIGHT=256&BBOX=%lf,%lf,%lf,%lf&.jpg" /\
  getExtension (this w') = "jpg".
Proof.
  intros w w'.
  assert (Hc : CapabilitiesReader_read (demo_ext None None) (usedCapabilitiesURL (this w))
               = Some demo_capabilities) by (vm_compute; reflexivity).
  assert (Hrun : createProfile (demo_ext None None) (Some 0%nat) EmptyString w
                 = Done (Some 0%nat) w') by (vm_compute; reflexivity).
  assert (Hm : matchingPatterns (demo_ext None None) (prepared (this w) demo_capabilities)
               = []) by (vm_compute; reflexivity).
  assert (Hw : _wms_format (this w) <> EmptyString) by (vm_compute; discriminate).
  destruct (createProfile_wms_format_overrides_the_format_parameter (demo_ext None None)
              (Some 0%nat) EmptyString demo_capabilities w w' (Some 0%nat) Hc Hrun Hm Hw)
    as [E1 E2].
  split.
  - rewrite E1. vm_compute. reflexivity.
  - rewrite E2. vm_compute. reflexivity.
Defined.

Lemma X14_witness :
  let ext := demo_ext None (Some [100%Q; 250%Q]) in
  let w := demo_resolved "basic" "ft" in
  let uri :=
    "http://x/wms?SERVICE=WMS&VERSION=1.1.1&REQUEST=GetMap&LAYERS=basic&FORMAT=image/png&STYLES=&SRS=EPSG:4326&WIDTH=256&HEIGHT=256&BBOX=-180.000000,-90.000000,0.000000,90.000000&.png" in
  createHeightField ext demo_key w =
    Done (convert ext (Some [100%Q; 250%Q]) (scaleFactor (_elevation_unit (this w))))
      (mkWorld (this w) (store w) (trace w ++ [FetchImage uri])%list).
Proof.
  intros ext w uri.
  apply (createHeightField_converts_the_fetched_image ext demo_key w uri [100%Q; 250%Q]);
    vm_compute; reflexivity.
Defined.

Lemma X16_witness :
  let w :=
    resolved_world (demo_ext (Some demo_tile_service) None) (Some 1%nat)
      (demo_world (Some demo_tile_service) "http://x/wms" "basic" EmptyString) in
  createURI demo_key w =
    Done
      "http://x/wms?request=GetMap&layers=global_mosaic&srs=EPSG:4326&format=image/jpeg&styles=t1&width=512&height=512&bbox=-180.000000,-90.000000,0.000000,90.000000&.png"
      w.
Proof.
  intros w.
  apply (createURI_fills_the_four_placeholders demo_key w
           "http://x/wms?request=GetMap&layers=global_mosaic&srs=EPSG:4326&format=image/jpeg&styles=t1&width=512&height=512&bbox="
           "&.png");
    try (vm_compute; reflexivity).
  apply Nat.ltb_lt. vm_compute. reflexivity.
Defined.

Lemma X17_witness :
  let w := demo_world None "http://x/wms" "basic" EmptyString in
  let w' := resolved_world (demo_ext None None) (Some 1%nat) w in
  createURI demo_key w' =
    Done
      "http://x/wms?SERVICE=WMS&VERSION=1.1.1&REQUEST=GetMap&LAYERS=basic&FORMAT=image/png&STYLES=&SRS=EPSG:4326&WIDTH=256&HEIGHT=256&BBOX=-180.000000,-90.000000,0.000000,90.000000&.png"
      w'.
Proof.
  intros w w'.
  apply (createURI_after_createProfile (demo_ext None None) (Some 1%nat) EmptyString
           demo_capabilities w w' (Some 0%nat) demo_key);
    try (vm_compute; reflexivity).
  apply Nat.ltb_lt. vm_compute. reflexivity.
Defined.

Lemma X18_witness :
  let w :=
    configured_world
      [("url", "http://x/wms"); ("layers", "basic"); ("tile_size", "512");
       ("default_tile_size", "128")] in
  getPixelsPerTile (this (resolved_world (demo_ext None None) (Some 0%nat) w)) = 512.
Proof.
  intros w.
  assert (Hrun :
    createProfile (demo_ext None None) (Some 0%nat) EmptyString
      (mkWorld
         (WMSSource_new (demo_ext None None)
            (list_to_map
               [("url", "http://x/wms"); ("layers", "basic"); ("tile_size", "512");
                ("default_tile_size", "128")]))
         demo_store [])
    = Done (Some 0%nat) (resolved_world (demo_ext None None) (Some 0%nat) w))
    by (vm_compute; reflexivity).
  rewrite (tile_size_takes_precedence_over_default_tile_size (demo_ext None None)
             _ _ _ _ _ _ _ Hrun).
  vm_compute. reflexivity.
Defined.

Lemma X19_witness :
  let options : gmap string string := list_to_map [("url", "http://x/wms")] in
  readObject (demo_ext None None) demo_getFileExtension demo_equalCaseInsensitive
    "earth.OSGEARTH_WMS" None = inl NullDereference /\
  readObject (demo_ext None None) demo_getFileExtension demo_equalCaseInsensitive
    "earth.png" None = inr FILE_NOT_HANDLED /\
  readObject (demo_ext None None) demo_getFileExtension demo_equalCaseInsensitive
    "earth.osgearth_wms" (Some options)
    = inr (ObjectRead (WMSSource_new (demo_ext None None) options)) /\
  createURI demo_key (mkWorld (WMSSource_new (demo_ext None None) options) demo_store [])
    = Done EmptyString
        (mkWorld (WMSSource_new (demo_ext None None) options) demo_store []).
Proof.
  intros options.
  destruct (readObject_declines_or_constructs_unresolved_source (demo_ext None None)
              demo_getFileExtension demo_equalCaseInsensitive "earth.OSGEARTH_WMS" None)
    as (_ & Hnull & _).
  destruct (readObject_declines_or_constructs_unresolved_source (demo_ext None None)
              demo_getFileExtension demo_equalCaseInsensitive "earth.png" None)
    as (Hdecline & _ & _).
  destruct (readObject_declines_or_constructs_unresolved_source (demo_ext None None)
              demo_getFileExtension demo_equalCaseInsensitive "earth.osgearth_wms"
              (Some options))
    as (_ & _ & Hread).
  destruct (Hread ltac:(vm_compute; reflexivity) options eq_refl) as [Hobj Huri].
  split; [apply Hnull; [vm_compute; reflexivity | reflexivity]|].
  split; [apply Hdecline; vm_compute; reflexivity|].
  split; [exact Hobj | apply Huri].
Defined.
